(** * Verification of the neotoma operational scripts

    A shallow embedding of the four scripts under [scripts/]:
    - [scrape_nytimes_simple.py] and [scrape_nytimes_article.py]
      (tiered content extraction from a browser page),
    - [add_ngrok_mapping.py] (one [add_record] call on a record store),
    - [create_sample_parquet_files.py] (sample copies of columnar files).

    External collaborators (the browser page, the record-store service, the
    file system) are modelled by the outcome of each call the scripts make
    on them; Python exceptions are explicit results. *)

From Stdlib Require Import ZArith Ascii String List Bool Lia.
From stdpp Require Import base option list strings gmap.

Local Open Scope string_scope.

(** ** Python results and exceptions *)

(** The scripts distinguish [KeyboardInterrupt] (a [BaseException]) from the
    subclasses of [Exception]: [except Exception] lets the former through,
    a bare [except:] catches both. *)
Inductive exn : Type :=
  | KeyboardInterrupt
  | Exception (msg : string).

Inductive py_result (A : Type) : Type :=
  | Ok (a : A)
  | Raise (e : exn).
Arguments Ok {A} a.
Arguments Raise {A} e.

Global Instance py_ret : MRet py_result := fun A a => Ok a.
Global Instance py_bind : MBind py_result := fun A B f r =>
  match r with
  | Ok a => f a
  | Raise e => Raise e
  end.

Definition is_Ok {A} (r : py_result A) : bool :=
  match r with Ok _ => true | Raise _ => false end.

(** [isinstance(e, Exception)] *)
Definition is_Exception (e : exn) : bool :=
  match e with Exception _ => true | KeyboardInterrupt => false end.

(** ** JSON values and the result dictionaries *)

Inductive json : Type :=
  | JNull
  | JBool (b : bool)
  | JInt (n : Z)
  | JStr (s : string).

(** A Python [dict] literal keeps the insertion order of its keys. *)
Definition dict : Type := list (string * json).

Fixpoint dict_get (d : dict) (key : string) : option json :=
  match d with
  | [] => None
  | (k, v) :: d' => if String.eqb k key then Some v else dict_get d' key
  end.

Definition keys (d : dict) : list string := map fst d.

(** [None] or a [str] *)
Definition json_of_optional (o : option string) : json :=
  match o with Some s => JStr s | None => JNull end.

(** ** The browser page *)

(** An element handle: each call on it returns or raises. *)
Record Element : Type := {
  inner_text : py_result string;
  get_attribute : string -> py_result (option string);
}.

(** A loaded page, as the scripts use it. [query_selector] returns [None]
    where nothing matches; [wait_for_selector] raises a timeout error
    there.  [body_inner_text] is [page.locator('body').inner_text()]. *)
Record Page : Type := {
  goto : string -> py_result unit;
  wait_for_timeout : py_result unit;
  query_selector : string -> py_result (option Element);
  wait_for_selector : string -> py_result (option Element);
  body_inner_text : py_result string;
  title : py_result string;
}.

(** The browser of a run: launching gives the page of a context or raises
    (profile directory, missing browser, rejected arguments); closing the
    context may raise as well. *)
Record Browser : Type := {
  launch_persistent_context : string -> bool -> py_result Page;
  launch_new_context : bool -> py_result Page;
  context_close : py_result unit;
}.

(** [try: body finally: cleanup]: an exception of the cleanup replaces the
    outcome of the body. *)
Definition finally {A} (body : py_result A) (cleanup : py_result unit)
  : py_result A :=
  match cleanup with
  | Ok _ => body
  | Raise e => Raise e
  end.

(** ** Process exit and the written file *)

(** How a script ends: [sys.exit(n)] (falling off the end is [ExitCode 0]),
    or an exception nobody caught, handed to the interpreter. *)
Inductive Exit : Type :=
  | ExitCode (n : Z)
  | Uncaught (e : exn).

(** [json.dump(payload, f, indent=.., ensure_ascii=..)] into a file opened
    with [open(path, 'w', encoding=..)]. *)
Record JsonFile : Type := {
  encoding : string;
  indent : nat;
  ensure_ascii : bool;
  payload : dict;
}.

(** What a scraper run leaves: the exit and the file written, if any. *)
Record Outcome : Type := {
  exit : Exit;
  written : option (string * JsonFile);
}.

(** The environment of a scraper run: the browser, and whether a path can
    be opened for writing. *)
Record Env : Type := {
  browser : Browser;
  open_w : string -> py_result unit;
}.

(** The [except KeyboardInterrupt: sys.exit(1)] and
    [except Exception: sys.exit(1)] handlers of both scrapers. *)
Definition exit_on_exception (e : exn) : Exit :=
  match e with
  | KeyboardInterrupt => ExitCode 1
  | Exception _ => ExitCode 1
  end.

(** [with open(path, 'w', encoding='utf-8') as f:
      json.dump(result, f, indent=2, ensure_ascii=False)] *)
Definition dump_result (env : Env) (path : string) (result : dict) : Outcome :=
  match open_w env path with
  | Ok _ =>
      {| exit := ExitCode 0;
         written := Some (path, {| encoding := "utf-8"; indent := 2;
                                   ensure_ascii := false; payload := result |}) |}
  | Raise e => {| exit := exit_on_exception e; written := None |}
  end.

(** ** Extraction results

    The scripts keep the extracted text in one variable ([content],
    [article_content]).  The selector that produced it is only printed; the
    model carries it along with the text, so that the source of the
    returned text is a value: the selector in whose iteration the variable
    was last assigned, or [Fallback] when the body text replaced it. *)
Inductive Matched : Type :=
  | Selector (s : string)
  | Fallback.

Record ExtractionResult : Type := {
  text : string;
  matched_selector : Matched;
}.

(** The content variable: [None], or a text with the selector it came from. *)
Definition Content : Type := option (string * string).

Definition fallback (page : Page) : py_result ExtractionResult :=
  t ← body_inner_text page; Ok {| text := t; matched_selector := Fallback |}.

(** ** Python string helpers *)

(** The double quote, for selectors such as [article[data-testid="article"]]. *)
Definition dq : string := String (ascii_of_nat 34) EmptyString.

(** The line feed of the [\n] escapes. *)
Definition nl : string := String (ascii_of_nat 10) EmptyString.

(** [data_testid tag v] is the selector [tag[data-testid="v"]]. *)
Definition data_testid (tag v : string) : string :=
  tag ++ "[data-testid=" ++ dq ++ v ++ dq ++ "]".

(** [len(s)] *)
Definition len (s : string) : nat := String.length s.

(** [s.strip()], on the ASCII white space characters. *)
Definition is_space (c : ascii) : bool :=
  let n := nat_of_ascii c in
  ((9 <=? n) && (n <=? 13) || (28 <=? n) && (n <=? 32))%nat.

Fixpoint lstrip (s : string) : string :=
  match s with
  | String c s' => if is_space c then lstrip s' else s
  | EmptyString => EmptyString
  end.

Definition strip (s : string) : string :=
  String.rev (lstrip (String.rev (lstrip s))).

(** [sub in s] *)
Fixpoint contains (sub s : string) : bool :=
  String.prefix sub s ||
  match s with
  | String _ s' => contains sub s'
  | EmptyString => false
  end.

(** ** Metadata probes shared by both scrapers *)

(** [for selector in selectors: try: elem = page.query_selector(selector);
    if elem: author = elem.inner_text().strip(); break] with the handler
    [except: continue] ([catch_all = true]) or [except Exception: continue]. *)
Fixpoint author_scan (catch_all : bool) (page : Page) (selectors : list string)
  : py_result (option string) :=
  match selectors with
  | [] => Ok None
  | selector :: rest =>
      match query_selector page selector with
      | Ok (Some elem) =>
          match inner_text elem with
          | Ok t => Ok (Some (strip t))
          | Raise e =>
              if catch_all || is_Exception e then author_scan catch_all page rest
              else Raise e
          end
      | Ok None => author_scan catch_all page rest
      | Raise e =>
          if catch_all || is_Exception e then author_scan catch_all page rest
          else Raise e
      end
  end.

(** ** scrape_nytimes_simple.py *)

Module Simple.

Definition content_selectors : list string :=
  [ data_testid "article" "article";
    data_testid "section" "article-body";
    ".StoryBodyCompanionColumn";
    "article" ].

Definition author_selectors : list string :=
  [ "[data-testid=" ++ dq ++ "byline-author" ++ dq ++ "]";
    ".byline-author";
    "[rel=" ++ dq ++ "author" ++ dq ++ "]" ].

(** Lines 55-69: the selector loop.  [content] is the variable as the
    previous iterations left it; the bare [except:] swallows every
    exception of the iteration, before or after the element was found. *)
Fixpoint content_scan (page : Page) (content : Content) (selectors : list string)
  : Content :=
  match selectors with
  | [] => content
  | selector :: rest =>
      match query_selector page selector with
      | Ok (Some elem) =>
          match inner_text elem with
          | Ok t =>
              if (500 <? len t)%nat then Some (t, selector)
              else content_scan page (Some (t, selector)) rest
          | Raise _ => content_scan page content rest
          end
      | Ok None => content_scan page content rest
      | Raise _ => content_scan page content rest
      end
  end.

(** Lines 54-73: [content = None], the loop, and the fallback guarded by
    [not content or len(content) < 500]. *)
Definition extract_content (page : Page) (selectors : list string)
  : py_result ExtractionResult :=
  match content_scan page None selectors with
  | Some (t, selector) =>
      if (len t =? 0)%nat || (len t <? 500)%nat then fallback page
      else Ok {| text := t; matched_selector := Selector selector |}
  | None => fallback page
  end.

(** Lines 89-95. *)
Definition result_dict (url title : string) (author : option string)
  (content : string) : dict :=
  [ ("url", JStr url);
    ("title", JStr title);
    ("author", json_of_optional author);
    ("content", JStr content);
    ("content_length", JInt (Z.of_nat (len content))) ].

(** Lines 44-102: the [try] body of [scrape_article], on the page the
    browser context gave. *)
Definition scrape_page (page : Page) (url : string) : py_result dict :=
  _ ← goto page url;
  _ ← wait_for_timeout page;
  r ← extract_content page content_selectors;
  title ← title page;
  author ← author_scan true page author_selectors;
  Ok (result_dict url title author (text r)).

(** [scrape_article(url)]: the persistent context, the [try] body, and
    [context.close()] in the [finally] clause.  The [except Exception]
    clause prints and raises the exception again; the pause before closing
    ([time.sleep], or the prompt of [--interactive]) changes no result. *)
Definition scrape_article (b : Browser) (url : string) : py_result dict :=
  page ← launch_persistent_context b ".playwright-nytimes" false;
  finally (scrape_page page url) (context_close b).

(** Lines 135-152; [output_file] is [args.output]. *)
Definition main (env : Env) (url output_file : string) : Outcome :=
  match scrape_article (browser env) url with
  | Ok result => dump_result env output_file result
  | Raise e => {| exit := exit_on_exception e; written := None |}
  end.

Definition default_output : string := "nytimes_article.json".

End Simple.

(** ** scrape_nytimes_article.py *)

Module Article.

Definition article_selectors : list string :=
  [ data_testid "article" "article";
    "article";
    "[data-testid=" ++ dq ++ "article-body" ++ dq ++ "]";
    data_testid "section" "article-body";
    ".StoryBodyCompanionColumn";
    "div[class*=" ++ dq ++ "article" ++ dq ++ "]" ].

Definition author_selectors : list string :=
  [ "[data-testid=" ++ dq ++ "byline-author" ++ dq ++ "]";
    ".byline-author";
    "[rel=" ++ dq ++ "author" ++ dq ++ "]";
    "span[itemprop=" ++ dq ++ "author" ++ dq ++ "]" ].

Definition date_selectors : list string :=
  [ "time[datetime]";
    "[data-testid=" ++ dq ++ "timestamp" ++ dq ++ "]";
    "time" ].

(** Lines 70-78: the loop leaves at the first element whose text it could
    read, whatever the length of that text; [except Exception: continue]
    lets a [KeyboardInterrupt] through. *)
Fixpoint content_scan (page : Page) (selectors : list string)
  : py_result Content :=
  match selectors with
  | [] => Ok None
  | selector :: rest =>
      match wait_for_selector page selector with
      | Ok (Some element) =>
          match inner_text element with
          | Ok t => Ok (Some (t, selector))
          | Raise e => if is_Exception e then content_scan page rest else Raise e
          end
      | Ok None => content_scan page rest
      | Raise e => if is_Exception e then content_scan page rest else Raise e
      end
  end.

(** Lines 69-83: the loop and the fallback guarded by [not article_content]. *)
Definition extract_content (page : Page) (selectors : list string)
  : py_result ExtractionResult :=
  c ← content_scan page selectors;
  match c with
  | Some (t, selector) =>
      if (len t =? 0)%nat then fallback page
      else Ok {| text := t; matched_selector := Selector selector |}
  | None => fallback page
  end.

(** [date_elem.get_attribute('datetime') or date_elem.inner_text()] *)
Definition date_of (date_elem : Element) : py_result string :=
  a ← get_attribute date_elem "datetime";
  match a with
  | Some (String c d) => Ok (String c d)
  | _ => inner_text date_elem
  end.

(** Lines 112-119. *)
Fixpoint date_scan (page : Page) (selectors : list string)
  : py_result (option string) :=
  match selectors with
  | [] => Ok None
  | selector :: rest =>
      match query_selector page selector with
      | Ok (Some date_elem) =>
          match date_of date_elem with
          | Ok d => Ok (Some d)
          | Raise e => if is_Exception e then date_scan page rest else Raise e
          end
      | Ok None => date_scan page rest
      | Raise e => if is_Exception e then date_scan page rest else Raise e
      end
  end.

(** Lines 121-128; [len(article_content) if article_content else 0]. *)
Definition result_dict (url title : string) (author pub_date : option string)
  (article_content : string) : dict :=
  [ ("url", JStr url);
    ("title", JStr title);
    ("author", json_of_optional author);
    ("publication_date", json_of_optional pub_date);
    ("content", JStr article_content);
    ("content_length",
      JInt (if (len article_content =? 0)%nat then 0
            else Z.of_nat (len article_content))) ].

(** Lines 51-135: the [try] body of [scrape_nytimes_article]. *)
Definition scrape_page (page : Page) (url : string) : py_result dict :=
  _ ← goto page url;
  _ ← wait_for_timeout page;
  r ← extract_content page article_selectors;
  title ← title page;
  author ← author_scan false page author_selectors;
  pub_date ← date_scan page date_selectors;
  Ok (result_dict url title author pub_date (text r)).

(** [scrape_nytimes_article(url, headless, use_persistent_context)]; the
    [except Exception] clause prints and raises the exception again, and
    the context is closed only when it is not the persistent one. *)
Definition scrape_nytimes_article (b : Browser) (url : string)
  (headless use_persistent_context : bool) : py_result dict :=
  page ← (if use_persistent_context
          then launch_persistent_context b ".playwright-browser-data" headless
          else launch_new_context b headless);
  finally (scrape_page page url)
          (if use_persistent_context then Ok tt else context_close b).

(** Lines 160-182; [output] is [args.output], [None] without [--output];
    [if args.output:] is false for [None] and for the empty string. *)
Definition main (env : Env) (url : string) (headless no_persistent : bool)
  (output : option string) : Outcome :=
  match scrape_nytimes_article (browser env) url headless (negb no_persistent) with
  | Ok result =>
      match output with
      | Some (String c path) => dump_result env (String c path) result
      | _ => {| exit := ExitCode 0; written := None |}
      end
  | Raise e => {| exit := exit_on_exception e; written := None |}
  end.

End Article.

(** ** add_ngrok_mapping.py *)

Module Ngrok.

(** [os.getenv(name, default)] *)
Definition getenv (environ : gmap string string) (name default : string) : string :=
  match environ !! name with
  | Some v => v
  | None => default
  end.

Definition PARQUET_MCP_SERVER_PATH (environ : gmap string string) : string :=
  getenv environ "PARQUET_MCP_SERVER_PATH"
    "/Users/markmhendrickson/repos/personal/truth/mcp-servers/parquet/parquet_mcp_server.py".

Definition PARQUET_MCP_PYTHON (environ : gmap string string) : string :=
  getenv environ "PARQUET_MCP_PYTHON"
    "/Users/markmhendrickson/repos/personal/execution/venv/bin/python3".

Definition DATA_DIR (environ : gmap string string) : string :=
  getenv environ "DATA_DIR"
    "/Users/markmhendrickson/Library/Mobile Documents/com~apple~CloudDocs/Documents/data".

(** The record store behind the service: the records of each collection. *)
Abbreviation Store := (gmap string (list dict)).

(** [StdioServerParameters(command, args, env)] *)
Record ServerParams : Type := {
  command : string;
  args : list string;
  env : list (string * string);
}.

(** The answer of [session.call_tool]. *)
Record ToolResult : Type := {
  isError : bool;
  content : string;
}.

(** A tool call as the service receives it. *)
Record Call : Type := {
  tool : string;
  data_type : string;
  record : dict;
}.

(** The machine the script runs on: which paths exist, how starting the
    service and initialising the session end, and what the service does
    with a call on a store. *)
Record System : Type := {
  path_exists : string -> bool;
  connect : ServerParams -> py_result unit;
  call_tool : Call -> Store -> py_result (ToolResult * Store);
}.

(** What the script can change or emit: the record store, the calls sent to
    the service, the connections opened, and the lines printed. *)
Record World : Type := {
  store : Store;
  calls : list Call;
  connections : list ServerParams;
  stdout : list string;
}.

Definition print (lines : list string) (w : World) : World :=
  {| store := store w; calls := calls w; connections := connections w;
     stdout := stdout w ++ lines |}.

Definition ngrok_record : dict :=
  [ ("env_var", JStr "NGROK_AUTHTOKEN");
    ("op_reference", JStr "op://Private/ngrok Ngrok/authtoken – neotoma (development)");
    ("vault", JStr "Private");
    ("item_name", JStr "ngrok Ngrok");
    ("field_label", JStr "authtoken – neotoma (development)");
    ("service", JStr "ngrok");
    ("is_optional", JBool true);
    ("environment_based", JBool true);
    ("environment_key", JStr "development");
    ("notes", JStr "ngrok authtoken for development environment HTTPS tunneling") ].

Definition add_record_call : Call :=
  {| tool := "add_record"; data_type := "env_var_mappings"; record := ngrok_record |}.

Definition python_hint : string :=
  "Please set PARQUET_MCP_PYTHON environment variable to correct path".

Definition server_hint : string :=
  "Please set PARQUET_MCP_SERVER_PATH environment variable to correct path".

Definition troubleshooting (environ : gmap string string) (e : string) : list string :=
  [ "Error connecting to MCP server: " ++ e;
    nl ++ "Troubleshooting:";
    "  1. Check Python path: " ++ PARQUET_MCP_PYTHON environ;
    "  2. Check MCP server path: " ++ PARQUET_MCP_SERVER_PATH environ;
    "  3. Check DATA_DIR: " ++ DATA_DIR environ ].

Definition success_lines : list string :=
  [ "✓ Successfully added NGROK_AUTHTOKEN mapping to env_var_mappings";
    "  Environment variable: NGROK_AUTHTOKEN";
    "  1Password reference: op://Private/ngrok Ngrok/authtoken – neotoma (development)";
    "  Service: ngrok";
    "  Environment: development";
    nl ++ "Next steps:";
    "  1. Run: npm run sync:env (or bash scripts/sync-env-from-1password.sh)";
    "  2. Verify NGROK_AUTHTOKEN is synced to .env" ].

(** Lines 47-51. *)
Definition server_params (environ : gmap string string) : ServerParams :=
  {| command := PARQUET_MCP_PYTHON environ;
     args := [PARQUET_MCP_SERVER_PATH environ];
     env := [("DATA_DIR", DATA_DIR environ)] |}.

(** The [except Exception as e] handler of lines 89-95. *)
Definition on_exception (environ : gmap string string) (e : exn) (w : World)
  : py_result bool * World :=
  match e with
  | Exception msg => (Ok false, print (troubleshooting environ msg) w)
  | KeyboardInterrupt => (Raise KeyboardInterrupt, w)
  end.

(** [add_ngrok_mapping()], lines 32-95. *)
Definition add_ngrok_mapping (environ : gmap string string) (sys : System)
  (w : World) : py_result bool * World :=
  if negb (path_exists sys (PARQUET_MCP_PYTHON environ)) then
    (Ok false,
     print [ "Error: Python executable not found: " ++ PARQUET_MCP_PYTHON environ;
             python_hint ] w)
  else if negb (path_exists sys (PARQUET_MCP_SERVER_PATH environ)) then
    (Ok false,
     print [ "Error: MCP server script not found: " ++ PARQUET_MCP_SERVER_PATH environ;
             server_hint ] w)
  else
    let w1 :=
      {| store := store w; calls := calls w;
         connections := connections w ++ [server_params environ];
         stdout := stdout w |} in
    match connect sys (server_params environ) with
    | Raise e => on_exception environ e w1
    | Ok _ =>
        let w2 :=
          {| store := store w1; calls := calls w1 ++ [add_record_call];
             connections := connections w1; stdout := stdout w1 |} in
        match call_tool sys add_record_call (store w1) with
        | Raise e => on_exception environ e w2
        | Ok (result, store') =>
            let w3 :=
              {| store := store'; calls := calls w2;
                 connections := connections w2; stdout := stdout w2 |} in
            if isError result then
              (Ok false, print ["Error adding mapping: " ++ content result] w3)
            else (Ok true, print success_lines w3)
        end
    end.

(** Lines 97-99: [sys.exit(0 if success else 1)]. *)
Definition main (environ : gmap string string) (sys : System) (w : World)
  : Exit * World :=
  match add_ngrok_mapping environ sys w with
  | (Ok success, w') => (ExitCode (if success then 0 else 1), w')
  | (Raise e, w') => (Uncaught e, w')
  end.

(** The operation succeeds: both prerequisites exist, the service starts,
    and it answers the [add_record] call without error. *)
Definition added (environ : gmap string string) (sys : System) (w : World) : Prop :=
  path_exists sys (PARQUET_MCP_PYTHON environ) = true /\
  path_exists sys (PARQUET_MCP_SERVER_PATH environ) = true /\
  connect sys (server_params environ) = Ok tt /\
  exists result store',
    call_tool sys add_record_call (store w) = Ok (result, store') /\
    isError result = false.

End Ngrok.

(** ** create_sample_parquet_files.py *)

Module Samples.

Definition SAMPLE_SIZE : nat := 50.

(** A path is its parent directory and its final component ([.name]). *)
Abbreviation Path := (string * string)%type.

Definition parent (p : Path) : string := fst p.
Definition name (p : Path) : string := snd p.

(** [str(path)] *)
Definition path_str (p : Path) : string := parent p ++ "/" ++ name p.

(** [s.endswith(suffix)] *)
Definition endswith (s suffix : string) : bool :=
  String.prefix (String.rev suffix) (String.rev s).

(** [s.replace(old, new)] for a non-empty [old]: every occurrence, left to
    right, without overlap.  [skip] counts the characters of a replaced
    occurrence still to be dropped. *)
Fixpoint replace_go (old new : string) (skip : nat) (s : string) : string :=
  match s with
  | EmptyString => EmptyString
  | String c s' =>
      match skip with
      | S k => replace_go old new k s'
      | O =>
          if String.prefix old s then new ++ replace_go old new (len old - 1) s'
          else String c (replace_go old new 0 s')
      end
  end.

Definition replace (s old new : string) : string := replace_go old new 0 s.

(** A table is its rows; a row is a record of scalars. *)
Abbreviation DataFrame := (list dict).

(** A columnar file: its size in bytes and what [pd.read_parquet] makes of
    it (the rows, or the exception of a corrupt file). *)
Record PFile : Type := {
  st_size : N;
  read_parquet : py_result DataFrame;
}.

Abbreviation FileSystem := (gmap Path PFile).

(** [path.exists()] *)
Definition exists_ (fs : FileSystem) (p : Path) : bool :=
  match fs !! p with Some _ => true | None => false end.

(** The writer: how [df.to_parquet(path)] ends, and the file it leaves when
    it succeeds. *)
Record Writer : Type := {
  to_parquet : DataFrame -> Path -> py_result PFile;
}.

(** [root_path.rglob("*.parquet")]: the files below [root_dir] whose name
    ends in [.parquet]. *)
Definition below (root_dir : string) (p : Path) : bool :=
  String.eqb (parent p) root_dir || String.prefix (root_dir ++ "/") (parent p).

Definition rglob_parquet (fs : FileSystem) (root_dir : string) : list Path :=
  filter (fun p => below root_dir p && endswith (name p) ".parquet")
         (map fst (map_to_list fs)).

Record FileInfo : Type := {
  source : Path;
  sample : Path;
  info_name : string;
}.

Definition sample_path (parquet_file : Path) : Path :=
  (parent parquet_file, replace (name parquet_file) ".parquet" "_sample.parquet").

(** [find_parquet_files], lines 22-35, on what [rglob] listed. *)
Fixpoint collect (listing : list Path) : list FileInfo :=
  match listing with
  | [] => []
  | parquet_file :: rest =>
      if contains "_sample" (name parquet_file)
         || contains "snapshots" (path_str parquet_file)
      then collect rest
      else {| source := parquet_file;
              sample := sample_path parquet_file;
              info_name := name parquet_file |} :: collect rest
  end.

Definition find_parquet_files (fs : FileSystem) (root_dir : string) : list FileInfo :=
  collect (rglob_parquet fs root_dir).

(** The run so far: the file system, the paths written, and the counters. *)
Record State : Type := {
  fs : FileSystem;
  writes : list Path;
  success_count : nat;
  skip_count : nat;
  error_count : nat;
}.

(** [file_size_mb > 100] with [file_size_mb = st_size / (1024 * 1024)]. *)
Definition too_large (f : PFile) : bool := (100 * 1024 * 1024 <? st_size f)%N.

(** [create_sample_file(source_path, sample_path)], lines 37-71: the
    boolean returned (or the [KeyboardInterrupt] that [except Exception]
    lets through) and the file system it leaves. *)
Definition create_sample_file (w : Writer) (files : FileSystem) (written : list Path)
  (source_path sample_path : Path) : py_result bool * FileSystem * list Path :=
  match files !! source_path with
  | None => (Ok false, files, written)
  | Some f =>
      if too_large f then (Ok false, files, written)
      else
        match read_parquet f with
        | Raise e =>
            (if is_Exception e then Ok false else Raise e, files, written)
        | Ok df =>
            let sample_size := Nat.min SAMPLE_SIZE (length df) in
            let df_sample := firstn sample_size df in
            if (length df_sample =? 0)%nat then (Ok false, files, written)
            else
              match to_parquet w df_sample sample_path with
              | Ok f' => (Ok true, <[sample_path := f']> files, (written ++ [sample_path])%list)
              | Raise e =>
                  (if is_Exception e then Ok false else Raise e, files, written)
              end
        end
  end.

(** The loop of [main], lines 93-111. *)
Fixpoint process (w : Writer) (st : State) (files : list FileInfo) : State :=
  match files with
  | [] => st
  | file_info :: rest =>
      if exists_ (fs st) (sample file_info) then
        process w {| fs := fs st; writes := writes st;
                     success_count := success_count st;
                     skip_count := S (skip_count st);
                     error_count := error_count st |} rest
      else
        match create_sample_file w (fs st) (writes st)
                (source file_info) (sample file_info) with
        | (Ok true, fs', writes') =>
            process w {| fs := fs'; writes := writes';
                         success_count := S (success_count st);
                         skip_count := skip_count st;
                         error_count := error_count st |} rest
        | (Ok false, fs', writes') =>
            process w {| fs := fs'; writes := writes';
                         success_count := success_count st;
                         skip_count := skip_count st;
                         error_count := S (error_count st) |} rest
        | (Raise KeyboardInterrupt, fs', writes') =>
            {| fs := fs'; writes := writes';
               success_count := success_count st;
               skip_count := skip_count st;
               error_count := error_count st |}
        | (Raise (Exception _), fs', writes') =>
            process w {| fs := fs'; writes := writes';
                         success_count := success_count st;
                         skip_count := skip_count st;
                         error_count := S (error_count st) |} rest
        end
  end.

(** [files[:max_files]] under [if max_files:]: no limit for [None] and 0. *)
Definition limit (max_files : option nat) (files : list FileInfo) : list FileInfo :=
  match max_files with
  | Some (S n) => firstn (S n) files
  | _ => files
  end.

(** [main()], lines 73-117, and the end of the script: it returns, so the
    process exits with code 0. *)
Definition main (w : Writer) (data_dir : string) (max_files : option nat)
  (files : FileSystem) : Exit * State :=
  let found := limit max_files (find_parquet_files files data_dir) in
  (ExitCode 0,
   process w {| fs := files; writes := []; success_count := 0;
                skip_count := 0; error_count := 0 |} found).

End Samples.

(** ** The page as a live document

    The extraction loops again, this time threading the state [D] of the
    document through every query: a query returns its answer and the
    document it leaves.  Nothing is assumed about the queries here; a
    document whose queries leave it as it was is [read_only]. *)

Module Live.

Record LiveElement (D : Type) : Type := {
  live_inner_text : D -> py_result string * D;
}.
Arguments live_inner_text {D} _ _.

Record LivePage (D : Type) : Type := {
  live_query_selector : string -> D -> py_result (option (LiveElement D)) * D;
  live_wait_for_selector : string -> D -> py_result (option (LiveElement D)) * D;
  live_body_inner_text : D -> py_result string * D;
}.
Arguments live_query_selector {D} _ _ _.
Arguments live_wait_for_selector {D} _ _ _.
Arguments live_body_inner_text {D} _ _.

Definition live_fallback {D} (page : LivePage D) (d : D)
  : py_result ExtractionResult * D :=
  match live_body_inner_text page d with
  | (Ok t, d') => (Ok {| text := t; matched_selector := Fallback |}, d')
  | (Raise e, d') => (Raise e, d')
  end.

(** scrape_nytimes_simple.py, lines 55-69. *)
Fixpoint simple_scan {D} (page : LivePage D) (content : Content)
  (selectors : list string) (d : D) : Content * D :=
  match selectors with
  | [] => (content, d)
  | selector :: rest =>
      match live_query_selector page selector d with
      | (Ok (Some elem), d1) =>
          match live_inner_text elem d1 with
          | (Ok t, d2) =>
              if (500 <? len t)%nat then (Some (t, selector), d2)
              else simple_scan page (Some (t, selector)) rest d2
          | (Raise _, d2) => simple_scan page content rest d2
          end
      | (Ok None, d1) => simple_scan page content rest d1
      | (Raise _, d1) => simple_scan page content rest d1
      end
  end.

(** scrape_nytimes_simple.py, lines 54-73. *)
Definition simple_extract {D} (page : LivePage D) (selectors : list string) (d : D)
  : py_result ExtractionResult * D :=
  match simple_scan page None selectors d with
  | (Some (t, selector), d') =>
      if (len t =? 0)%nat || (len t <? 500)%nat then live_fallback page d'
      else (Ok {| text := t; matched_selector := Selector selector |}, d')
  | (None, d') => live_fallback page d'
  end.

(** scrape_nytimes_article.py, lines 70-78. *)
Fixpoint article_scan {D} (page : LivePage D) (selectors : list string) (d : D)
  : py_result Content * D :=
  match selectors with
  | [] => (Ok None, d)
  | selector :: rest =>
      match live_wait_for_selector page selector d with
      | (Ok (Some element), d1) =>
          match live_inner_text element d1 with
          | (Ok t, d2) => (Ok (Some (t, selector)), d2)
          | (Raise e, d2) =>
              if is_Exception e then article_scan page rest d2 else (Raise e, d2)
          end
      | (Ok None, d1) => article_scan page rest d1
      | (Raise e, d1) =>
          if is_Exception e then article_scan page rest d1 else (Raise e, d1)
      end
  end.

(** scrape_nytimes_article.py, lines 69-83. *)
Definition article_extract {D} (page : LivePage D) (selectors : list string) (d : D)
  : py_result ExtractionResult * D :=
  match article_scan page selectors d with
  | (Ok (Some (t, selector)), d') =>
      if (len t =? 0)%nat then live_fallback page d'
      else (Ok {| text := t; matched_selector := Selector selector |}, d')
  | (Ok None, d') => live_fallback page d'
  | (Raise e, d') => (Raise e, d')
  end.

(** No query changes the document: neither the lookups, nor reading the
    text of an element a lookup returned, nor reading the body. *)
Definition lookup_read_only {D}
  (lookup : string -> D -> py_result (option (LiveElement D)) * D) : Prop :=
  forall s d,
    snd (lookup s d) = d /\
    forall elem, fst (lookup s d) = Ok (Some elem) ->
      forall d', snd (live_inner_text elem d') = d'.

Definition read_only {D} (page : LivePage D) : Prop :=
  lookup_read_only (live_query_selector page) /\
  lookup_read_only (live_wait_for_selector page) /\
  forall d, snd (live_body_inner_text page d) = d.

(** The document [d] seen as a page that answers without changing. *)
Definition freeze_element {D} (d : D) (elem : LiveElement D) : Element :=
  {| inner_text := fst (live_inner_text elem d);
     get_attribute := fun _ => Ok None |}.

Definition freeze_lookup {D}
  (lookup : string -> D -> py_result (option (LiveElement D)) * D) (d : D)
  (s : string) : py_result (option Element) :=
  match fst (lookup s d) with
  | Ok (Some elem) => Ok (Some (freeze_element d elem))
  | Ok None => Ok None
  | Raise e => Raise e
  end.

Definition freeze {D} (page : LivePage D) (d : D) : Page :=
  {| goto := fun _ => Ok tt;
     wait_for_timeout := Ok tt;
     query_selector := freeze_lookup (live_query_selector page) d;
     wait_for_selector := freeze_lookup (live_wait_for_selector page) d;
     body_inner_text := fst (live_body_inner_text page d);
     title := Ok "" |}.

End Live.

(** ** The two extractors side by side *)

Inductive Script : Type :=
  | SimpleScript
  | ArticleScript.

(** The lookup each content loop uses. *)
Definition lookup (k : Script) (page : Page) (selector : string)
  : py_result (option Element) :=
  match k with
  | SimpleScript => query_selector page selector
  | ArticleScript => wait_for_selector page selector
  end.

Definition extract (k : Script) (page : Page) (selectors : list string)
  : py_result ExtractionResult :=
  match k with
  | SimpleScript => Simple.extract_content page selectors
  | ArticleScript => Article.extract_content page selectors
  end.

Definition scrape_page (k : Script) (page : Page) (url : string) : py_result dict :=
  match k with
  | SimpleScript => Simple.scrape_page page url
  | ArticleScript => Article.scrape_page page url
  end.

(** The whole scrape function of each script; the simple one has no
    [headless] and [use_persistent_context] parameters. *)
Definition scrape (k : Script) (b : Browser) (url : string)
  (headless use_persistent_context : bool) : py_result dict :=
  match k with
  | SimpleScript => Simple.scrape_article b url
  | ArticleScript => Article.scrape_nytimes_article b url headless use_persistent_context
  end.

(** The text a selector yields on a page: the lookup finds an element and
    its visible text can be read. *)
Definition yields (k : Script) (page : Page) (selector : string) : option string :=
  match lookup k page selector with
  | Ok (Some elem) =>
      match inner_text elem with
      | Ok t => Some t
      | Raise _ => None
      end
  | _ => None
  end.

(** The probe of a selector was cut by a [KeyboardInterrupt] that the loop
    does not catch; the bare [except:] of the simple script catches it. *)
Definition interrupted (k : Script) (page : Page) (selector : string) : bool :=
  match k with
  | SimpleScript => false
  | ArticleScript =>
      match wait_for_selector page selector with
      | Raise KeyboardInterrupt => true
      | Ok (Some elem) =>
          match inner_text elem with
          | Raise KeyboardInterrupt => true
          | _ => false
          end
      | _ => false
      end
  end.

(** Text shorter than this is replaced by the body text: the guards
    [len(content) < 500] and [not article_content]. *)
Definition minimum_length (k : Script) : nat :=
  match k with
  | SimpleScript => 500
  | ArticleScript => 1
  end.

(** The text at which the loop leaves: [len(content) > 500] in the simple
    script, any text in the article script. *)
Definition stops (k : Script) (t : string) : bool :=
  match k with
  | SimpleScript => (500 <? len t)%nat
  | ArticleScript => true
  end.

(** The first selector of the list, in order, that yields a text accepted
    by [accept], with that text. *)
Fixpoint first_yield (accept : string -> bool) (k : Script) (page : Page)
  (selectors : list string) : option (string * string) :=
  match selectors with
  | [] => None
  | selector :: rest =>
      match yields k page selector with
      | Some t =>
          if accept t then Some (selector, t)
          else first_yield accept k page rest
      | None => first_yield accept k page rest
      end
  end.

(** The first selector that yields text of length at least [m]. *)
Definition first_meeting (m : nat) : Script -> Page -> list string
  -> option (string * string) :=
  first_yield (fun t => (m <=? len t)%nat).

(** A lookup that raises an error, seen as a lookup without a match. *)
Definition error_as_no_match (r : py_result (option Element))
  : py_result (option Element) :=
  match r with
  | Raise (Exception _) => Ok None
  | _ => r
  end.

(** The page with every failing selector lookup turned into "no match". *)
Definition without_lookup_errors (page : Page) : Page :=
  {| goto := goto page;
     wait_for_timeout := wait_for_timeout page;
     query_selector := fun s => error_as_no_match (query_selector page s);
     wait_for_selector := fun s => error_as_no_match (wait_for_selector page s);
     body_inner_text := body_inner_text page;
     title := title page |}.

(** The page with the lookup of one selector replaced. *)
Definition with_lookup (page : Page) (selector : string)
  (r : py_result (option Element)) : Page :=
  {| goto := goto page;
     wait_for_timeout := wait_for_timeout page;
     query_selector := fun s =>
       if String.eqb s selector then r else query_selector page s;
     wait_for_selector := fun s =>
       if String.eqb s selector then r else wait_for_selector page s;
     body_inner_text := body_inner_text page;
     title := title page |}.

(** The extraction of each script on a live document. *)
Definition live_extract {D} (k : Script) (page : Live.LivePage D)
  (selectors : list string) (d : D) : py_result ExtractionResult * D :=
  match k with
  | SimpleScript => Live.simple_extract page selectors d
  | ArticleScript => Live.article_extract page selectors d
  end.

(** The command line of each script: [args.output] is the given path, the
    default of the simple script, or [None] in the article script. *)
Definition run (k : Script) (env : Env) (url : string)
  (headless no_persistent : bool) (output : option string) : Outcome :=
  match k with
  | SimpleScript =>
      Simple.main env url
        (match output with Some path => path | None => Simple.default_output end)
  | ArticleScript => Article.main env url headless no_persistent output
  end.

(** The path the script writes its record to, if it writes one. *)
Definition target (k : Script) (output : option string) : option string :=
  match k with
  | SimpleScript =>
      Some (match output with Some path => path | None => Simple.default_output end)
  | ArticleScript =>
      match output with
      | Some (String c path) => Some (String c path)
      | _ => None
      end
  end.

(** The keys of the record each script builds, in order. *)
Definition record_fields (k : Script) : list string :=
  match k with
  | SimpleScript => ["url"; "title"; "author"; "content"; "content_length"]
  | ArticleScript =>
      ["url"; "title"; "author"; "publication_date"; "content"; "content_length"]
  end.

(** The fields the specification lists for the persisted record. *)
Definition specified_fields : list string :=
  ["url"; "title"; "author"; "publication_date"; "content"; "content_length"].

(** The last selector of the list, in order, that yields text, with that
    text. *)
Definition last_yield (k : Script) (page : Page) (selectors : list string)
  : option (string * string) :=
  first_yield (fun _ => true) k page (rev selectors).

(** The author both scripts record: the stripped text of the first author
    selector that yields text. *)
Definition first_author (page : Page) (selectors : list string) : option string :=
  match first_yield (fun _ => true) SimpleScript page selectors with
  | Some (_, t) => Some (strip t)
  | None => None
  end.

(** One iteration of the loop of [Samples.main] that goes on to the next
    file: the sample was there and is skipped; or it was created; or
    creating it failed, which changes nothing but the error count. *)
Definition stepped (w : Samples.Writer) (st : Samples.State)
  (info : Samples.FileInfo) (st1 : Samples.State) : Prop :=
  (Samples.exists_ (Samples.fs st) (Samples.sample info) = true /\
   Samples.fs st1 = Samples.fs st /\
   Samples.writes st1 = Samples.writes st /\
   Samples.success_count st1 = Samples.success_count st /\
   Samples.skip_count st1 = S (Samples.skip_count st) /\
   Samples.error_count st1 = Samples.error_count st)
  \/
  (Samples.exists_ (Samples.fs st) (Samples.sample info) = false /\
   (exists f', Samples.fs st1 = <[Samples.sample info := f']> (Samples.fs st)) /\
   fst (fst (Samples.create_sample_file w (Samples.fs st) (Samples.writes st)
               (Samples.source info) (Samples.sample info))) = Ok true /\
   Samples.writes st1 = (Samples.writes st ++ [Samples.sample info])%list /\
   Samples.success_count st1 = S (Samples.success_count st) /\
   Samples.skip_count st1 = Samples.skip_count st /\
   Samples.error_count st1 = Samples.error_count st)
  \/
  (Samples.exists_ (Samples.fs st) (Samples.sample info) = false /\
   (exists r,
      Samples.create_sample_file w (Samples.fs st) (Samples.writes st)
        (Samples.source info) (Samples.sample info)
      = (r, Samples.fs st, Samples.writes st) /\
      r <> Ok true /\ r <> Raise KeyboardInterrupt) /\
   Samples.fs st1 = Samples.fs st /\
   Samples.writes st1 = Samples.writes st /\
   Samples.success_count st1 = Samples.success_count st /\
   Samples.skip_count st1 = Samples.skip_count st /\
   Samples.error_count st1 = S (Samples.error_count st)).

(** The iteration that a [KeyboardInterrupt] ends: the loop is left with the
    state as it was. *)
Definition interrupted_at (w : Samples.Writer) (st : Samples.State)
  (info : Samples.FileInfo) (st1 : Samples.State) : Prop :=
  Samples.exists_ (Samples.fs st) (Samples.sample info) = false /\
  Samples.create_sample_file w (Samples.fs st) (Samples.writes st)
    (Samples.source info) (Samples.sample info)
  = (Raise KeyboardInterrupt, Samples.fs st, Samples.writes st) /\
  Samples.fs st1 = Samples.fs st /\
  Samples.writes st1 = Samples.writes st /\
  Samples.success_count st1 = Samples.success_count st /\
  Samples.skip_count st1 = Samples.skip_count st /\
  Samples.error_count st1 = Samples.error_count st.

(** No [KeyboardInterrupt] reaches the run: reading a file of the file
    system and writing a sample end without one. *)
Definition never_interrupted (w : Samples.Writer)
  (files : gmap (string * string) Samples.PFile) : Prop :=
  (forall p f, files !! p = Some f ->
     Samples.read_parquet f <> Raise KeyboardInterrupt) /\
  (forall df p, Samples.to_parquet w df p <> Raise KeyboardInterrupt).

(** What [create_sample_file] returns for a file on a file system. *)
Definition outcome (w : Samples.Writer)
  (files : gmap (string * string) Samples.PFile) (info : Samples.FileInfo)
  : py_result bool :=
  fst (fst (Samples.create_sample_file w files []
              (Samples.source info) (Samples.sample info))).

(** Nothing is left to do for a file: its sample is there, or creating it
    fails. *)
Definition settled (w : Samples.Writer)
  (files : gmap (string * string) Samples.PFile) (info : Samples.FileInfo) : Prop :=
  Samples.exists_ files (Samples.sample info) = true \/
  outcome w files info <> Ok true.

(** The files [Samples.main] goes through. *)
Definition selected (data_dir : string) (max_files : option nat)
  (files : gmap (string * string) Samples.PFile) : list Samples.FileInfo :=
  Samples.limit max_files (Samples.find_parquet_files files data_dir).

(** The content variable holds no text of [n] characters or more. *)
Definition short_content (n : nat) (content : Content) : Prop :=
  match content with
  | Some (t, _) => len t < n
  | None => True
  end.

(** ** Concrete pages and worlds used by the examples below *)

Module Examples.

(** An element with the given visible text and no attributes. *)
Definition element (t : string) : Element :=
  {| inner_text := Ok t; get_attribute := fun _ => Ok None |}.

Fixpoint assoc {A} (l : list (string * A)) (key : string) : option A :=
  match l with
  | [] => None
  | (k, v) :: l' => if String.eqb k key then Some v else assoc l' key
  end.

(** A page given by the elements its selectors match and by its body text:
    [query_selector] answers [None] for the other selectors,
    [wait_for_selector] times out on them. *)
Definition page_of (matches : list (string * Element)) (body : string) : Page :=
  {| goto := fun _ => Ok tt;
     wait_for_timeout := Ok tt;
     query_selector := fun s => Ok (assoc matches s);
     wait_for_selector := fun s =>
       match assoc matches s with
       | Some e => Ok (Some e)
       | None => Raise (Exception "Timeout 5000ms exceeded.")
       end;
     body_inner_text := Ok body;
     title := Ok "A headline" |}.

(** [n] times the letter x. *)
Fixpoint xs (n : nat) : string :=
  match n with
  | O => EmptyString
  | S n' => String "x" (xs n')
  end.

(** "a" matches an element without text, "b" one with the text
    "hello world"; the body reads "full page text here". *)
Definition empty_then_text : Page :=
  page_of [("a", element ""); ("b", element "hello world")] "full page text here".

(** "a" matches an element of exactly 500 characters, "b" a short one. *)
Definition exact_then_short : Page :=
  page_of [("a", element (xs 500)); ("b", element "hi")] "full page text here".

(** "a" matches an element of exactly 500 characters, "b" one of 600. *)
Definition exact_then_long : Page :=
  page_of [("a", element (xs 500)); ("b", element (xs 600))] "full page text here".

(** "a" matches a teaser, "b" the article body of 600 characters. *)
Definition teaser_then_body : Page :=
  page_of [("a", element "hi"); ("b", element (xs 600))] "full page text here".

(** "a" matches nothing; the body reads "full page text here". *)
Definition no_match : Page := page_of [] "full page text here".

(** The lookup of "a" fails, "b" matches the article body. *)
Definition failing_then_body : Page :=
  with_lookup teaser_then_body "a" (Raise (Exception "Execution context was destroyed")).

(** A browser whose contexts show the given page. *)
Definition browser_of (page : Page) : Browser :=
  {| launch_persistent_context := fun _ _ => Ok page;
     launch_new_context := fun _ => Ok page;
     context_close := Ok tt |}.

Definition env_of (page : Page) : Env :=
  {| browser := browser_of page; open_w := fun _ => Ok tt |}.

(** A record store that appends the record to its collection. *)
Definition appending_store (c : Ngrok.Call) (st : Ngrok.Store)
  : py_result (Ngrok.ToolResult * Ngrok.Store) :=
  Ok ({| Ngrok.isError := false; Ngrok.content := "added" |},
      <[Ngrok.data_type c :=
          (match st !! Ngrok.data_type c with Some l => l | None => [] end
           ++ [Ngrok.record c])%list]> st).

(** A machine with the given paths, on which the service starts. *)
Definition machine (paths : list string) : Ngrok.System :=
  {| Ngrok.path_exists := fun p => existsb (String.eqb p) paths;
     Ngrok.connect := fun _ => Ok tt;
     Ngrok.call_tool := appending_store |}.

Definition empty_world : Ngrok.World :=
  {| Ngrok.store := ∅; Ngrok.calls := []; Ngrok.connections := [];
     Ngrok.stdout := [] |}.

(** The interpreter is there, the service script is not. *)
Definition only_python : Ngrok.System :=
  machine [Ngrok.PARQUET_MCP_PYTHON ∅].

(** Both prerequisites are there. *)
Definition ready : Ngrok.System :=
  machine [Ngrok.PARQUET_MCP_PYTHON ∅; Ngrok.PARQUET_MCP_SERVER_PATH ∅].

(** A writer that always succeeds. *)
Definition plain_writer : Samples.Writer :=
  {| Samples.to_parquet := fun df _ =>
       Ok {| Samples.st_size := 1000; Samples.read_parquet := Ok df |} |}.

(** A table of [n] rows. *)
Definition table (n : nat) : Samples.PFile :=
  {| Samples.st_size := 4096;
     Samples.read_parquet := Ok (repeat [("id", JInt 1)] n) |}.

Definition corrupt : Samples.PFile :=
  {| Samples.st_size := 4096;
     Samples.read_parquet := Raise (Exception "Parquet magic bytes not found") |}.

(** One corrupt source file. *)
Definition corrupt_only : gmap (string * string) Samples.PFile :=
  {[ ("/data", "a.parquet") := corrupt ]}.

(** Two sources; the sample of the first is already there, with 3 rows. *)
Definition one_sampled : gmap (string * string) Samples.PFile :=
  <[ ("/data", "a.parquet") := table 60 ]>
  (<[ ("/data", "a_sample.parquet") := table 3 ]>
  {[ ("/data/sub", "b.parquet") := table 60 ]}).

(** A live document that is its own body text: every selector matches an
    element showing that text, and no query changes the document. *)
Definition static_element : Live.LiveElement string :=
  {| Live.live_inner_text := fun d => (Ok d, d) |}.

Definition static_page : Live.LivePage string :=
  {| Live.live_query_selector := fun _ d => (Ok (Some static_element), d);
     Live.live_wait_for_selector := fun _ d => (Ok (Some static_element), d);
     Live.live_body_inner_text := fun d => (Ok d, d) |}.

(** A live document that grows by one character each time its text is
    read. *)
Definition growing_element : Live.LiveElement string :=
  {| Live.live_inner_text := fun d => (Ok d, String "x" d) |}.

Definition growing_page : Live.LivePage string :=
  {| Live.live_query_selector := fun _ d => (Ok (Some growing_element), d);
     Live.live_wait_for_selector := fun _ d => (Ok (Some growing_element), d);
     Live.live_body_inner_text := fun d => (Ok d, d) |}.

(** A page on which nothing matches and the body cannot be read. *)
Definition unreadable : Page :=
  {| goto := fun _ => Ok tt;
     wait_for_timeout := Ok tt;
     query_selector := fun _ => Ok None;
     wait_for_selector := fun _ => Raise (Exception "Timeout 5000ms exceeded.");
     body_inner_text := Raise (Exception "Timeout 30000ms exceeded.");
     title := Ok "A headline" |}.

(** A browser whose context cannot be closed. *)
Definition stuck_browser (page : Page) : Browser :=
  {| launch_persistent_context := fun _ _ => Ok page;
     launch_new_context := fun _ => Ok page;
     context_close := Raise (Exception "Target closed") |}.

(** A machine with both prerequisites whose service cannot be started. *)
Definition unreachable : Ngrok.System :=
  {| Ngrok.path_exists := fun _ => true;
     Ngrok.connect := fun _ => Raise (Exception "Connection closed");
     Ngrok.call_tool := appending_store |}.

(** A machine with both prerequisites whose service rejects the record and
    leaves its store as it was. *)
Definition rejecting : Ngrok.System :=
  {| Ngrok.path_exists := fun _ => true;
     Ngrok.connect := fun _ => Ok tt;
     Ngrok.call_tool := fun _ st =>
       Ok ({| Ngrok.isError := true; Ngrok.content := "duplicate record" |}, st) |}.

(** A source of 120 MiB, a source without rows, and a missing sample. *)
Definition oversized : Samples.PFile :=
  {| Samples.st_size := 125829120;
     Samples.read_parquet := Ok (repeat [("id", JInt 1)] 10) |}.

Definition three_sources : gmap (string * string) Samples.PFile :=
  <[ ("/data", "big.parquet") := oversized ]>
  (<[ ("/data", "none.parquet") := table 0 ]>
  {[ ("/data", "c.parquet") := table 7 ]}).

End Examples.

(** * Properties *)

(** ** Python helpers *)

Lemma len_xs n : len (Examples.xs n) = n.
Proof. unfold len. induction n as [|n IH]; simpl; [reflexivity | now f_equal]. Qed.

Lemma finally_returns {A} (body : py_result A) cleanup (a : A) :
  finally body cleanup = Ok a -> body = Ok a.
Proof. unfold finally. destruct cleanup; [tauto | discriminate]. Qed.

(** ** The selector loops *)

(** The simple loop leaves at the first selector with more than 500
    characters, whatever [content] held before. *)
Lemma simple_scan_stops page selectors : forall content s t,
  first_yield (stops SimpleScript) SimpleScript page selectors = Some (s, t) ->
  Simple.content_scan page content selectors = Some (t, s).
Proof.
  induction selectors as [|selector rest IH]; intros content s t H; [discriminate|].
  simpl in *. unfold yields, lookup in H.
  destruct (query_selector page selector) as [[elem|]|e]; auto.
  destruct (inner_text elem) as [t0|e]; auto.
  simpl in H. destruct (500 <? len t0)%nat; auto. congruence.
Qed.

(** The variable after the simple loop is short when it was short before
    and every text the selectors yield is short. *)
Lemma simple_scan_short page selectors : forall content,
  short_content 500 content ->
  (forall s t, In s selectors -> yields SimpleScript page s = Some t -> len t < 500) ->
  short_content 500 (Simple.content_scan page content selectors).
Proof.
  induction selectors as [|selector rest IH]; intros content Hc Hall; [exact Hc|].
  simpl. pose proof (Hall selector) as Hsel. unfold yields, lookup in Hsel.
  assert (Hrest : forall s t, In s rest ->
            yields SimpleScript page s = Some t -> len t < 500)
    by (intros; eapply Hall; [right|]; eassumption).
  destruct (query_selector page selector) as [[elem|]|e]; auto.
  destruct (inner_text elem) as [t0|e]; auto.
  specialize (Hsel t0 (or_introl eq_refl) eq_refl).
  destruct (Nat.ltb_spec 500 (len t0)); [lia|].
  apply IH; auto.
Qed.

(** Without a stop, the text left by the simple loop has at most 500
    characters. *)
Lemma simple_scan_no_stop page selectors : forall content,
  short_content 501 content ->
  first_yield (stops SimpleScript) SimpleScript page selectors = None ->
  short_content 501 (Simple.content_scan page content selectors).
Proof.
  induction selectors as [|selector rest IH]; intros content Hc H; [exact Hc|].
  simpl in *. unfold yields, lookup in H.
  destruct (query_selector page selector) as [[elem|]|e]; auto.
  destruct (inner_text elem) as [t0|e]; auto.
  simpl in H. destruct (Nat.ltb_spec 500 (len t0)); [discriminate|].
  apply IH; auto. simpl. lia.
Qed.

(** The article loop, where no probe is interrupted, leaves at the first
    selector that yields text. *)
Lemma article_scan_stops page selectors : forall s t,
  (forall s', In s' selectors -> interrupted ArticleScript page s' = false) ->
  first_yield (stops ArticleScript) ArticleScript page selectors = Some (s, t) ->
  Article.content_scan page selectors = Ok (Some (t, s)).
Proof.
  induction selectors as [|selector rest IH]; intros s t Hint H; [discriminate|].
  simpl in *. pose proof (Hint selector (or_introl eq_refl)) as Hi.
  unfold yields, lookup in H. unfold interrupted in Hi.
  assert (Hrest : forall s', In s' rest -> interrupted ArticleScript page s' = false)
    by (intros; apply Hint; now right).
  destruct (wait_for_selector page selector) as [[elem|]|[|msg]]; simpl; auto;
    try discriminate.
  destruct (inner_text elem) as [t0|[|msg]]; simpl; auto; try discriminate.
  simpl in H. congruence.
Qed.

Lemma article_scan_none page selectors :
  (forall s', In s' selectors -> interrupted ArticleScript page s' = false) ->
  first_yield (stops ArticleScript) ArticleScript page selectors = None ->
  Article.content_scan page selectors = Ok None.
Proof.
  induction selectors as [|selector rest IH]; intros Hint H; [reflexivity|].
  simpl in *. pose proof (Hint selector (or_introl eq_refl)) as Hi.
  unfold yields, lookup in H. unfold interrupted in Hi.
  assert (Hrest : forall s', In s' rest -> interrupted ArticleScript page s' = false)
    by (intros; apply Hint; now right).
  destruct (wait_for_selector page selector) as [[elem|]|[|msg]]; simpl; auto;
    try discriminate.
  destruct (inner_text elem) as [t0|[|msg]]; simpl; auto; discriminate.
Qed.

(** What the article loop returned is the first selector that yields text,
    when it returned at all. *)
Lemma article_scan_returns page selectors : forall c,
  Article.content_scan page selectors = Ok c ->
  first_yield (stops ArticleScript) ArticleScript page selectors
  = match c with Some (t, s) => Some (s, t) | None => None end.
Proof.
  induction selectors as [|selector rest IH]; intros c H; simpl in *.
  - now inversion H.
  - unfold yields, lookup.
    destruct (wait_for_selector page selector) as [[elem|]|[|msg]]; simpl in *;
      auto; try discriminate.
    destruct (inner_text elem) as [t0|[|msg]]; simpl in *; auto; try discriminate.
    now inversion H.
Qed.

(** A first yield is a yield of a selector of the list, accepted. *)
Lemma first_yield_sound accept k page selectors s t :
  first_yield accept k page selectors = Some (s, t) ->
  In s selectors /\ yields k page s = Some t /\ accept t = true.
Proof.
  induction selectors as [|selector rest IH]; intros H; [discriminate|].
  simpl in H. destruct (yields k page selector) as [t0|] eqn:Hy.
  - destruct (accept t0) eqn:Ha.
    + inversion H; subst. simpl; auto.
    + destruct (IH H) as (?&?&?). simpl; auto.
  - destruct (IH H) as (?&?&?). simpl; auto.
Qed.

Lemma fallback_is_fallback page r :
  fallback page = Ok r -> matched_selector r = Fallback.
Proof.
  unfold fallback. destruct (body_inner_text page); simpl; [|discriminate].
  intros H; now inversion H.
Qed.

Lemma fallback_reads_body page body :
  body_inner_text page = Ok body ->
  fallback page = Ok {| text := body; matched_selector := Fallback |}.
Proof. unfold fallback. now intros ->. Qed.

(** ** Priority of the selectors (C1) *)

(** Claim C1 fails as stated: on the page where "a" matches an element
    without text and "b" one with the text "hello world", the first selector
    whose text has at least the minimum length of the article script (one
    character) is "b", yet the article script stops at "a" and returns the
    body text as fallback. *)
Lemma first_sufficient_selector_not_matched_by_article :
  first_meeting (minimum_length ArticleScript) ArticleScript
    Examples.empty_then_text ["a"; "b"] = Some ("b", "hello world") /\
  extract ArticleScript Examples.empty_then_text ["a"; "b"]
  = Ok {| text := "full page text here"; matched_selector := Fallback |}.
Proof. split; reflexivity. Qed.

(** The same page with no threshold at all (minimum length 0): the first
    selector that yields text is "a", and the result is still the fallback. *)
Lemma article_empty_text_falls_back :
  first_meeting 0 ArticleScript Examples.empty_then_text ["a"; "b"] = Some ("a", "") /\
  extract ArticleScript Examples.empty_then_text ["a"; "b"]
  = Ok {| text := "full page text here"; matched_selector := Fallback |}.
Proof. split; reflexivity. Qed.

(** The boundary of the simple script: a text of exactly 500 characters
    does not stop the loop ([> 500]) and is not replaced by the fallback
    ([< 500]); a later longer text wins over it, a later shorter text
    overwrites it and triggers the fallback, and alone it is returned. *)
Lemma simple_text_of_500_characters :
  extract SimpleScript Examples.exact_then_long ["a"; "b"]
  = Ok {| text := Examples.xs 600; matched_selector := Selector "b" |} /\
  extract SimpleScript Examples.exact_then_short ["a"; "b"]
  = Ok {| text := "full page text here"; matched_selector := Fallback |} /\
  extract SimpleScript Examples.exact_then_short ["a"]
  = Ok {| text := Examples.xs 500; matched_selector := Selector "a" |}.
Proof. repeat split; vm_compute; reflexivity. Qed.

(** Claim C1, amended: where no probe is interrupted, the scan stops at the
    first selector, in list order, whose text makes the loop leave (more
    than 500 characters in the simple script, any text in the article
    script); when that text has the minimum length, it is the result and
    that selector is the matched one. *)
Theorem first_stop_is_matched k page selectors s t :
  (forall s', In s' selectors -> interrupted k page s' = false) ->
  first_yield (stops k) k page selectors = Some (s, t) ->
  minimum_length k <= len t ->
  extract k page selectors = Ok {| text := t; matched_selector := Selector s |}.
Proof.
  intros Hint Hfirst Hlen. destruct k; simpl in *.
  - unfold Simple.extract_content.
    rewrite (simple_scan_stops _ _ None _ _ Hfirst).
    destruct (Nat.eqb_spec (len t) 0); [lia|].
    destruct (Nat.ltb_spec (len t) 500); [lia|]. reflexivity.
  - unfold Article.extract_content.
    rewrite (article_scan_stops _ _ _ _ Hint Hfirst). simpl.
    destruct (Nat.eqb_spec (len t) 0); [lia|]. reflexivity.
Qed.

Lemma first_stop_is_matched_witness :
  extract SimpleScript Examples.teaser_then_body ["a"; "b"]
  = Ok {| text := Examples.xs 600; matched_selector := Selector "b" |}.
Proof.
  apply (first_stop_is_matched SimpleScript Examples.teaser_then_body ["a"; "b"]).
  - intros s' _. reflexivity.
  - vm_compute. reflexivity.
  - vm_compute. lia.
Defined.

(** The article script takes the first text it can read, however short:
    a teaser of two characters wins over the article body behind it. *)
Example article_takes_first_text :
  extract ArticleScript Examples.teaser_then_body ["a"; "b"]
  = Ok {| text := "hi"; matched_selector := Selector "a" |} /\
  extract SimpleScript Examples.teaser_then_body ["a"; "b"]
  = Ok {| text := Examples.xs 600; matched_selector := Selector "b" |}.
Proof. split; vm_compute; reflexivity. Qed.

(** ** The fallback (C2) *)

(** Claim C2: where no probe is interrupted and the body text can be read,
    if no selector of the list yields text of the minimum length (the empty
    list included), the result is the whole body text, whatever its length,
    and the matched selector is the fallback sentinel. *)
Theorem fallback_when_no_selector_suffices k page selectors body :
  (forall s, In s selectors -> interrupted k page s = false) ->
  (forall s t, In s selectors -> yields k page s = Some t ->
               len t < minimum_length k) ->
  body_inner_text page = Ok body ->
  extract k page selectors = Ok {| text := body; matched_selector := Fallback |}.
Proof.
  intros Hint Hshort Hbody. destruct k; simpl in *.
  - unfold Simple.extract_content.
    pose proof (simple_scan_short page selectors None I Hshort) as H.
    destruct (Simple.content_scan page None selectors) as [[t s]|];
      [|now apply fallback_reads_body].
    simpl in H. destruct (Nat.ltb_spec (len t) 500); [|lia].
    rewrite orb_true_r. now apply fallback_reads_body.
  - unfold Article.extract_content.
    destruct (first_yield (stops ArticleScript) ArticleScript page selectors)
      as [[s t]|] eqn:Hfirst.
    + rewrite (article_scan_stops _ _ _ _ Hint Hfirst). simpl.
      destruct (first_yield_sound _ _ _ _ _ _ Hfirst) as (Hin & Hy & _).
      specialize (Hshort s t Hin Hy).
      destruct (Nat.eqb_spec (len t) 0); [|lia].
      now apply fallback_reads_body.
    + rewrite (article_scan_none _ _ Hint Hfirst). simpl.
      now apply fallback_reads_body.
Qed.

Lemma fallback_when_no_selector_suffices_witness :
  extract SimpleScript Examples.no_match ["a"]
  = Ok {| text := "full page text here"; matched_selector := Fallback |} /\
  extract ArticleScript Examples.no_match []
  = Ok {| text := "full page text here"; matched_selector := Fallback |}.
Proof.
  split.
  - apply (fallback_when_no_selector_suffices SimpleScript Examples.no_match ["a"]).
    + intros s _. reflexivity.
    + intros s t [<-|[]]. vm_compute. discriminate.
    + reflexivity.
  - apply (fallback_when_no_selector_suffices ArticleScript Examples.no_match []).
    + intros s [].
    + intros s t [].
    + reflexivity.
Defined.

(** ** When the fallback is used (C3) *)

(** Claim C3 fails as stated: on the page where "a" matches an element
    without text and "b" one with the text "hello world", the article script
    returns the fallback although the candidate "b" yields text of the
    minimum length (and although the candidate "a", the one it probed,
    produced a text, the empty one). *)
Lemma fallback_despite_sufficient_candidate :
  extract ArticleScript Examples.empty_then_text ["a"; "b"]
  = Ok {| text := "full page text here"; matched_selector := Fallback |} /\
  In "b" ["a"; "b"] /\
  yields ArticleScript Examples.empty_then_text "b" = Some "hello world" /\
  minimum_length ArticleScript <= len "hello world" /\
  yields ArticleScript Examples.empty_then_text "a" = Some "".
Proof. repeat split; simpl; auto; lia. Qed.

(** Claim C3, amended: in every extraction result, the matched selector is
    the fallback sentinel whenever no candidate yields text of the minimum
    length; and whenever it is the fallback sentinel, the selector at which
    the loop leaves, if there is one, yielded less than the minimum length
    (so no candidate yields more than 500 characters in the simple script,
    and the first candidate that yields text yields the empty string in the
    article script). *)
Theorem fallback_characterised k page selectors r :
  extract k page selectors = Ok r ->
  ((forall s t, In s selectors -> yields k page s = Some t ->
                len t < minimum_length k) ->
   matched_selector r = Fallback) /\
  (matched_selector r = Fallback ->
   forall s t, first_yield (stops k) k page selectors = Some (s, t) ->
               len t < minimum_length k).
Proof.
  intros Hr. destruct k; simpl in *.
  - unfold Simple.extract_content in Hr. split.
    + intros Hshort.
      pose proof (simple_scan_short page selectors None I Hshort) as H.
      destruct (Simple.content_scan page None selectors) as [[t s]|];
        [|now apply (fallback_is_fallback page)].
      simpl in H. destruct (Nat.ltb_spec (len t) 500); [|lia].
      rewrite orb_true_r in Hr. now apply (fallback_is_fallback page).
    + intros Hfb s t Hfirst.
      rewrite (simple_scan_stops _ _ None _ _ Hfirst) in Hr.
      destruct (first_yield_sound _ _ _ _ _ _ Hfirst) as (_ & _ & Hstop).
      simpl in Hstop. apply Nat.ltb_lt in Hstop.
      destruct (Nat.eqb_spec (len t) 0); [lia|].
      destruct (Nat.ltb_spec (len t) 500); [lia|].
      simpl in Hr. inversion Hr; subst. discriminate.
  - unfold Article.extract_content in Hr.
    destruct (Article.content_scan page selectors) as [c|e] eqn:Hscan;
      [|discriminate].
    pose proof (article_scan_returns _ _ _ Hscan) as Hfirst. simpl in Hr. split.
    + intros Hshort. destruct c as [[t s]|]; [|now apply (fallback_is_fallback page)].
      destruct (first_yield_sound _ _ _ _ _ _ Hfirst) as (Hin & Hy & _).
      specialize (Hshort s t Hin Hy).
      destruct (Nat.eqb_spec (len t) 0); [|lia].
      now apply (fallback_is_fallback page).
    + intros Hfb s t Hst. rewrite Hst in Hfirst.
      destruct c as [[t' s']|]; [|discriminate].
      inversion Hfirst; subst.
      destruct (Nat.eqb_spec (len t') 0); [lia|].
      inversion Hr; subst. discriminate.
Qed.

Lemma fallback_characterised_witness :
  matched_selector {| text := "full page text here"; matched_selector := Fallback |}
  = Fallback.
Proof.
  refine (proj1 (fallback_characterised SimpleScript Examples.no_match ["a"] _ _) _).
  - vm_compute. reflexivity.
  - intros s t [<-|[]]. vm_compute. discriminate.
Defined.

(** ** Lookup errors (C4) *)

(** A lookup that raises an error and a lookup without a match take the
    same branch of the simple loop. *)
Lemma simple_scan_modulo_errors p p' :
  (forall s, error_as_no_match (query_selector p s)
             = error_as_no_match (query_selector p' s)) ->
  forall selectors content,
    Simple.content_scan p content selectors = Simple.content_scan p' content selectors.
Proof.
  intros Hsame. induction selectors as [|selector rest IH]; intros content;
    [reflexivity|].
  simpl. specialize (Hsame selector).
  destruct (query_selector p selector) as [[elem|]|[|msg]];
    destruct (query_selector p' selector) as [[elem'|]|[|msg']];
    simpl in Hsame; try discriminate; auto.
  inversion Hsame; subst.
  destruct (inner_text elem'); auto. destruct (500 <? len a)%nat; auto.
Qed.

Lemma article_scan_modulo_errors p p' :
  (forall s, error_as_no_match (wait_for_selector p s)
             = error_as_no_match (wait_for_selector p' s)) ->
  forall selectors,
    Article.content_scan p selectors = Article.content_scan p' selectors.
Proof.
  intros Hsame. induction selectors as [|selector rest IH]; [reflexivity|].
  simpl. specialize (Hsame selector).
  destruct (wait_for_selector p selector) as [[elem|]|[|msg]];
    destruct (wait_for_selector p' selector) as [[elem'|]|[|msg']];
    simpl in Hsame; try discriminate; auto.
  inversion Hsame; subst.
  destruct (inner_text elem') as [t|[|msg]]; simpl; auto.
Qed.

Lemma extract_modulo_errors k p p' :
  (forall s, error_as_no_match (lookup k p s) = error_as_no_match (lookup k p' s)) ->
  body_inner_text p = body_inner_text p' ->
  forall selectors, extract k p selectors = extract k p' selectors.
Proof.
  intros Hsame Hbody selectors. destruct k; simpl in *.
  - unfold Simple.extract_content, fallback.
    rewrite (simple_scan_modulo_errors p p' Hsame), Hbody. reflexivity.
  - unfold Article.extract_content, fallback.
    rewrite (article_scan_modulo_errors p p' Hsame), Hbody. reflexivity.
Qed.

(** A selector whose lookup raises an error does not change what the loops
    do with the selectors after it. *)
Lemma simple_scan_skips_error page s msg pre post :
  query_selector page s = Raise (Exception msg) ->
  forall content,
    Simple.content_scan page content (pre ++ s :: post)%list
    = Simple.content_scan page content (pre ++ post)%list.
Proof.
  intros Hs. induction pre as [|selector pre IH]; intros content; simpl.
  - now rewrite Hs.
  - destruct (query_selector page selector) as [[elem|]|e]; auto.
    destruct (inner_text elem); auto. destruct (500 <? len a)%nat; auto.
Qed.

Lemma article_scan_skips_error page s msg pre post :
  wait_for_selector page s = Raise (Exception msg) ->
  Article.content_scan page (pre ++ s :: post)%list
  = Article.content_scan page (pre ++ post)%list.
Proof.
  intros Hs. induction pre as [|selector pre IH]; simpl.
  - now rewrite Hs.
  - destruct (wait_for_selector page selector) as [[elem|]|e]; auto.
    + destruct (inner_text elem) as [t|e]; auto. destruct (is_Exception e); auto.
    + destruct (is_Exception e); auto.
Qed.

(** Claim C4: a selector whose lookup raises an error is treated as a
    selector without a match.  The extraction gives the result it gives on
    the page where that lookup returns no element, and the result it gives
    on the list without that selector: the selectors after it are probed as
    if it had not been there. *)
Theorem lookup_error_is_no_match k page s msg :
  lookup k page s = Raise (Exception msg) ->
  (forall selectors,
     extract k page selectors = extract k (with_lookup page s (Ok None)) selectors) /\
  (forall pre post,
     extract k page (pre ++ s :: post)%list = extract k page (pre ++ post)%list).
Proof.
  intros Hs. split.
  - apply extract_modulo_errors; [|reflexivity].
    intros s'. destruct k; simpl in *;
      (destruct (String.eqb_spec s' s) as [->|]; [now rewrite Hs | reflexivity]).
  - intros pre post. destruct k; simpl in *.
    + unfold Simple.extract_content.
      now rewrite (simple_scan_skips_error page s msg pre post Hs).
    + unfold Article.extract_content.
      now rewrite (article_scan_skips_error page s msg pre post Hs).
Qed.

Lemma lookup_error_is_no_match_witness :
  extract SimpleScript Examples.failing_then_body ["a"; "b"]
  = extract SimpleScript Examples.failing_then_body ["b"].
Proof.
  refine (proj2 (lookup_error_is_no_match SimpleScript Examples.failing_then_body
                   "a" "Execution context was destroyed" _) [] ["b"]).
  reflexivity.
Defined.

(** The same for every failing lookup of the page at once. *)
Lemma lookup_errors_are_no_matches k page selectors :
  extract k (without_lookup_errors page) selectors = extract k page selectors.
Proof.
  apply extract_modulo_errors; [|reflexivity].
  intros s. destruct k; simpl;
    [destruct (query_selector page s) as [?|[|?]]
    |destruct (wait_for_selector page s) as [?|[|?]]]; reflexivity.
Qed.

(** The scan goes on after a failing lookup: the second scenario of the
    specification with a failing first selector. *)
Example failing_lookup_then_match :
  extract SimpleScript Examples.failing_then_body ["a"; "b"]
  = Ok {| text := Examples.xs 600; matched_selector := Selector "b" |} /\
  extract ArticleScript Examples.failing_then_body ["a"; "b"]
  = Ok {| text := Examples.xs 600; matched_selector := Selector "b" |}.
Proof. split; vm_compute; reflexivity. Qed.

(** ** The record and its length field (C9, C5) *)

Lemma simple_scrape_page_returns page url r :
  Simple.scrape_page page url = Ok r ->
  exists title author content, r = Simple.result_dict url title author content.
Proof.
  unfold Simple.scrape_page, mbind, py_bind.
  destruct (goto page url); [|discriminate].
  destruct (wait_for_timeout page); [|discriminate].
  destruct (Simple.extract_content page Simple.content_selectors) as [x|];
    [|discriminate].
  destruct (title page) as [ti|]; [|discriminate].
  destruct (author_scan true page Simple.author_selectors) as [au|];
    [|discriminate].
  intros H; inversion H. eauto.
Qed.

Lemma article_scrape_page_returns page url r :
  Article.scrape_page page url = Ok r ->
  exists title author pub_date content,
    r = Article.result_dict url title author pub_date content.
Proof.
  unfold Article.scrape_page, mbind, py_bind.
  destruct (goto page url); [|discriminate].
  destruct (wait_for_timeout page); [|discriminate].
  destruct (Article.extract_content page Article.article_selectors) as [x|];
    [|discriminate].
  destruct (title page) as [ti|]; [|discriminate].
  destruct (author_scan false page Article.author_selectors) as [au|];
    [|discriminate].
  destruct (Article.date_scan page Article.date_selectors) as [da|];
    [|discriminate].
  intros H; inversion H. eauto 6.
Qed.

(** A scrape that returns went through the [try] body on some page. *)
Lemma scrape_returns k b url headless persistent r :
  scrape k b url headless persistent = Ok r ->
  exists page, scrape_page k page url = Ok r.
Proof.
  destruct k; simpl.
  - unfold Simple.scrape_article, mbind, py_bind.
    destruct (launch_persistent_context b _ false) as [page|]; [|discriminate].
    intros H. exists page. now apply finally_returns in H.
  - unfold Article.scrape_nytimes_article, mbind, py_bind.
    destruct (if persistent then _ else _) as [page|]; [|discriminate].
    intros H. exists page. now apply finally_returns in H.
Qed.

Lemma scrape_page_fields k page url r :
  scrape_page k page url = Ok r -> keys r = record_fields k.
Proof.
  destruct k; simpl; intros H.
  - apply simple_scrape_page_returns in H as (?&?&?&->). reflexivity.
  - apply article_scrape_page_returns in H as (?&?&?&?&->). reflexivity.
Qed.

(** Claim C9: in the record of every scrape that returns, in both scripts,
    [content] is a string and [content_length] is the number of its
    characters, zero for the empty text. *)
Theorem content_length_is_len k b url headless persistent r :
  scrape k b url headless persistent = Ok r ->
  exists t,
    dict_get r "content" = Some (JStr t) /\
    dict_get r "content_length" = Some (JInt (Z.of_nat (len t))).
Proof.
  intros H. apply scrape_returns in H as [page H]. destruct k; simpl in H.
  - apply simple_scrape_page_returns in H as (ti & au & c & ->).
    exists c. split; reflexivity.
  - apply article_scrape_page_returns in H as (ti & au & da & c & ->).
    exists c. split; [reflexivity|]. simpl.
    destruct (Nat.eqb_spec (len c) 0) as [->|]; reflexivity.
Qed.

Lemma content_length_is_len_witness :
  exists t,
    dict_get (Article.result_dict "https://example.org/a" "A headline" None None
                "full page text here") "content" = Some (JStr t) /\
    dict_get (Article.result_dict "https://example.org/a" "A headline" None None
                "full page text here") "content_length"
    = Some (JInt (Z.of_nat (len t))).
Proof.
  apply (content_length_is_len ArticleScript (Examples.browser_of Examples.no_match)
           "https://example.org/a" true true).
  vm_compute. reflexivity.
Defined.

(** The empty text: an empty body behind selectors that match nothing. *)
Example empty_content_has_length_zero :
  scrape ArticleScript (Examples.browser_of (Examples.page_of [] ""))
    "https://example.org/a" false true
  = Ok (Article.result_dict "https://example.org/a" "A headline" None None "") /\
  dict_get (Article.result_dict "https://example.org/a" "A headline" None None "")
    "content_length" = Some (JInt 0).
Proof. split; vm_compute; reflexivity. Qed.

(** Claim C5 fails as stated: the record the simple script persists has five
    fields, without [publication_date]. *)
Lemma simple_record_lacks_publication_date :
  option_map (fun f => keys (payload (snd f)))
    (written (run SimpleScript (Examples.env_of Examples.no_match)
                "https://example.org/a" false false (Some "out.json")))
  = Some ["url"; "title"; "author"; "content"; "content_length"] /\
  ["url"; "title"; "author"; "content"; "content_length"] <> specified_fields.
Proof. split; [vm_compute; reflexivity | discriminate]. Qed.

(** Claim C5, amended: when the scrape returns a record and the target path
    (the [--output] path, or the default of the simple script) can be
    opened, the script exits with code 0 after writing that record to that
    path as JSON, in UTF-8, indented by 2, non-ASCII characters unescaped.
    The record of the article script has exactly the six specified fields,
    that of the simple script the same without [publication_date]. *)
Theorem persisted_record k env url headless no_persistent output path result :
  scrape k (browser env) url headless (negb no_persistent) = Ok result ->
  target k output = Some path ->
  open_w env path = Ok tt ->
  run k env url headless no_persistent output
  = {| exit := ExitCode 0;
       written := Some (path, {| encoding := "utf-8"; indent := 2;
                                 ensure_ascii := false; payload := result |}) |} /\
  keys result = record_fields k /\
  record_fields ArticleScript = specified_fields.
Proof.
  intros Hscrape Htarget Hopen. split; [|split; [|reflexivity]].
  - destruct k; simpl in *.
    + unfold Simple.main. rewrite Hscrape. inversion Htarget as [Hpath].
      rewrite Hpath. unfold dump_result. now rewrite Hopen.
    + unfold Article.main. rewrite Hscrape.
      destruct output as [[|c p]|]; try discriminate.
      inversion Htarget; subst. unfold dump_result. now rewrite Hopen.
  - apply scrape_returns in Hscrape as [page H].
    now apply scrape_page_fields in H.
Qed.

Lemma persisted_record_witness :
  run ArticleScript (Examples.env_of Examples.no_match) "https://example.org/a"
    true false (Some "out.json")
  = {| exit := ExitCode 0;
       written := Some ("out.json",
         {| encoding := "utf-8"; indent := 2; ensure_ascii := false;
            payload := Article.result_dict "https://example.org/a" "A headline"
                         None None "full page text here" |}) |}.
Proof.
  refine (proj1 (persisted_record ArticleScript (Examples.env_of Examples.no_match)
                   "https://example.org/a" true false (Some "out.json") "out.json"
                   _ _ _ _)).
  - vm_compute. reflexivity.
  - reflexivity.
  - reflexivity.
Defined.

(** Without [--output] the article script persists nothing. *)
Lemma article_without_output_writes_nothing env url headless no_persistent :
  written (run ArticleScript env url headless no_persistent None) = None.
Proof.
  simpl. unfold Article.main.
  destruct (Article.scrape_nytimes_article _ _ _ _); reflexivity.
Qed.

(** ** add_ngrok_mapping: prerequisites and exit (C7) *)

(** Claim C7: when the Python executable or the service script is missing,
    [add_ngrok_mapping] returns [False] and the process exits with code 1;
    the remediation hint of the missing prerequisite is printed; no
    connection is opened and no call is sent, so the record store is as it
    was. *)
Theorem prerequisites_checked_first environ sys w :
  Ngrok.path_exists sys (Ngrok.PARQUET_MCP_PYTHON environ) = false \/
  Ngrok.path_exists sys (Ngrok.PARQUET_MCP_SERVER_PATH environ) = false ->
  exists w',
    Ngrok.add_ngrok_mapping environ sys w = (Ok false, w') /\
    Ngrok.main environ sys w = (ExitCode 1, w') /\
    Ngrok.store w' = Ngrok.store w /\
    Ngrok.calls w' = Ngrok.calls w /\
    Ngrok.connections w' = Ngrok.connections w /\
    (In Ngrok.python_hint (Ngrok.stdout w') \/ In Ngrok.server_hint (Ngrok.stdout w')).
Proof.
  intros Hmissing. unfold Ngrok.main, Ngrok.add_ngrok_mapping.
  destruct (Ngrok.path_exists sys (Ngrok.PARQUET_MCP_PYTHON environ)) eqn:Hpy; simpl.
  - destruct Hmissing as [?|Hsrv]; [discriminate|]. rewrite Hsrv. simpl.
    eexists. repeat split. right. apply in_or_app. right. simpl. auto.
  - eexists. repeat split. left. apply in_or_app. right. simpl. auto.
Qed.

Lemma prerequisites_checked_first_witness :
  exists w',
    Ngrok.add_ngrok_mapping ∅ Examples.only_python Examples.empty_world = (Ok false, w') /\
    Ngrok.main ∅ Examples.only_python Examples.empty_world = (ExitCode 1, w') /\
    Ngrok.store w' = Ngrok.store Examples.empty_world /\
    Ngrok.calls w' = Ngrok.calls Examples.empty_world /\
    Ngrok.connections w' = Ngrok.connections Examples.empty_world /\
    (In Ngrok.python_hint (Ngrok.stdout w') \/ In Ngrok.server_hint (Ngrok.stdout w')).
Proof.
  apply (prerequisites_checked_first ∅ Examples.only_python Examples.empty_world).
  right. vm_compute. reflexivity.
Defined.

(** With both prerequisites the call is sent, once. *)
Example ready_machine_adds_the_record :
  let '(e, w') := Ngrok.main ∅ Examples.ready Examples.empty_world in
  e = ExitCode 0 /\
  Ngrok.calls w' = [Ngrok.add_record_call] /\
  Ngrok.store w' !! "env_var_mappings" = Some [Ngrok.ngrok_record].
Proof. vm_compute. repeat split. Qed.

(** ** create_sample_parquet_files: existing samples (C10) *)

(** [create_sample_file] leaves the file system as it was, or adds the
    sample file at [sample_path]. *)
Lemma create_sample_file_effect w files written src smp r files' written' :
  Samples.create_sample_file w files written src smp = (r, files', written') ->
  (files' = files /\ written' = written) \/
  (exists f', files' = <[smp := f']> files /\ written' = (written ++ [smp])%list).
Proof.
  unfold Samples.create_sample_file.
  destruct (files !! src) as [f|]; [|intros H; inversion H; auto].
  destruct (Samples.too_large f); [intros H; inversion H; auto|].
  destruct (Samples.read_parquet f) as [df|e]; [|intros H; inversion H; auto].
  destruct (_ =? 0)%nat; [intros H; inversion H; auto|].
  destruct (Samples.to_parquet w _ smp) as [f'|e]; intros H; inversion H; eauto.
Qed.

(** One step of the loop of [main]: a path that exists keeps its file, and
    a path written did not exist. *)
Lemma process_frame w files : forall st,
  (forall p f, Samples.fs st !! p = Some f ->
               Samples.fs (Samples.process w st files) !! p = Some f) /\
  (forall p, In p (Samples.writes (Samples.process w st files)) ->
             In p (Samples.writes st) \/ Samples.fs st !! p = None).
Proof.
  induction files as [|file_info rest IH]; intros st; [simpl; auto|].
  simpl. unfold Samples.exists_.
  destruct (Samples.fs st !! Samples.sample file_info) as [existing|] eqn:Hsample.
  - specialize (IH {| Samples.fs := Samples.fs st; Samples.writes := Samples.writes st;
                      Samples.success_count := Samples.success_count st;
                      Samples.skip_count := S (Samples.skip_count st);
                      Samples.error_count := Samples.error_count st |}).
    exact IH.
  - destruct (Samples.create_sample_file w (Samples.fs st) (Samples.writes st)
                (Samples.source file_info) (Samples.sample file_info))
      as [[r fs'] writes'] eqn:Hcreate.
    apply create_sample_file_effect in Hcreate.
    assert (Hkeep : forall p f, Samples.fs st !! p = Some f -> fs' !! p = Some f).
    { intros p f Hp. destruct Hcreate as [[-> _]|(f' & -> & _)]; [exact Hp|].
      rewrite lookup_insert_ne; [exact Hp|]. congruence. }
    assert (Hnew : forall p, In p writes' \/ fs' !! p = None ->
                     In p (Samples.writes st) \/ Samples.fs st !! p = None).
    { intros p Hp. destruct Hcreate as [[-> ->]|(f' & -> & ->)]; [exact Hp|].
      destruct Hp as [Hp|Hp].
      - apply in_app_or in Hp as [Hp|[<-|[]]]; auto.
      - apply lookup_insert_None in Hp as [Hp _]. auto. }
    destruct r as [[|]|[|msg]];
      try (match goal with
           | |- context [Samples.process w ?st' rest] =>
               destruct (IH st') as [IH1 IH2]; simpl in IH1, IH2
           end;
           split; [intros p f Hp; apply IH1, Hkeep, Hp
                  |intros p Hp; apply Hnew, IH2, Hp]).
    simpl. split; [exact Hkeep | intros p Hp; apply Hnew; auto].
Qed.

Lemma collect_excludes_samples listing info :
  In info (Samples.collect listing) ->
  contains "_sample" (Samples.name (Samples.source info)) = false /\
  Samples.sample info = Samples.sample_path (Samples.source info) /\
  In (Samples.source info) listing.
Proof.
  induction listing as [|parquet_file rest IH]; simpl; [tauto|].
  destruct (contains "_sample" (Samples.name parquet_file)) eqn:Hs; simpl.
  - intros H. destruct (IH H) as (?&?&?). auto.
  - destruct (contains "snapshots" (Samples.path_str parquet_file)); simpl.
    + intros H. destruct (IH H) as (?&?&?). auto.
    + intros [<-|H]; simpl; auto. destruct (IH H) as (?&?&?). auto.
Qed.

(** Claim C10: for every source file the script selected whose sample path
    exists before the run, the script does not write to that path and the
    file there is the same after the run; and no selected source has
    [_sample] in its name. *)
Theorem existing_samples_untouched w data_dir max_files files info f :
  In info (Samples.find_parquet_files files data_dir) ->
  files !! Samples.sample info = Some f ->
  let st := snd (Samples.main w data_dir max_files files) in
  Samples.fs st !! Samples.sample info = Some f /\
  ~ In (Samples.sample info) (Samples.writes st) /\
  forall info', In info' (Samples.find_parquet_files files data_dir) ->
    contains "_sample" (Samples.name (Samples.source info')) = false.
Proof.
  intros Hin Hsample st. subst st. unfold Samples.main. simpl.
  match goal with
  | |- context [Samples.process w ?st0 ?found] =>
      destruct (process_frame w found st0) as [Hkeep Hnew]
  end.
  simpl in Hkeep, Hnew. split; [|split].
  - apply Hkeep, Hsample.
  - intros Hw. apply Hnew in Hw as [[]|Hnone]. congruence.
  - intros info' Hin'. unfold Samples.find_parquet_files in Hin'.
    now apply collect_excludes_samples in Hin'.
Qed.

Lemma existing_samples_untouched_witness :
  Samples.fs (snd (Samples.main Examples.plain_writer "/data" None Examples.one_sampled))
    !! ("/data", "a_sample.parquet") = Some (Examples.table 3).
Proof.
  refine (proj1 (existing_samples_untouched Examples.plain_writer "/data" None
                   Examples.one_sampled
                   {| Samples.source := ("/data", "a.parquet");
                      Samples.sample := ("/data", "a_sample.parquet");
                      Samples.info_name := "a.parquet" |}
                   (Examples.table 3) _ _)).
  - vm_compute. left. reflexivity.
  - vm_compute. reflexivity.
Defined.

(** The other source of that run gets its sample, of 50 rows. *)
Example missing_sample_is_created :
  let st := snd (Samples.main Examples.plain_writer "/data" None Examples.one_sampled) in
  Samples.writes st = [("/data/sub", "b_sample.parquet")] /\
  (Samples.success_count st, Samples.skip_count st, Samples.error_count st) = (1, 1, 0) /\
  option_map (fun f => match Samples.read_parquet f with
                       | Ok df => length df
                       | Raise _ => 0
                       end)
    (Samples.fs st !! ("/data/sub", "b_sample.parquet")) = Some 50.
Proof. vm_compute. repeat split. Qed.

(** ** Exit codes (C6) *)

(** Claim C6 fails as stated: create_sample_parquet_files handles the error
    of a corrupt source file, counts it, and exits with code 0. *)
Lemma sample_script_exits_0_after_error :
  fst (Samples.main Examples.plain_writer "/data" None Examples.corrupt_only)
  = ExitCode 0 /\
  Samples.error_count
    (snd (Samples.main Examples.plain_writer "/data" None Examples.corrupt_only)) = 1 /\
  Samples.success_count
    (snd (Samples.main Examples.plain_writer "/data" None Examples.corrupt_only)) = 0.
Proof. repeat split; vm_compute; reflexivity. Qed.

Lemma ngrok_exit environ sys w :
  (fst (Ngrok.main environ sys w) = ExitCode 0 <-> Ngrok.added environ sys w) /\
  (fst (Ngrok.main environ sys w) = ExitCode 0 \/
   fst (Ngrok.main environ sys w) = ExitCode 1 \/
   fst (Ngrok.main environ sys w) = Uncaught KeyboardInterrupt).
Proof.
  unfold Ngrok.main, Ngrok.add_ngrok_mapping, Ngrok.added.
  destruct (Ngrok.path_exists sys (Ngrok.PARQUET_MCP_PYTHON environ)); simpl;
    [|split; [split; [discriminate | intros (?&_); discriminate] | auto]].
  destruct (Ngrok.path_exists sys (Ngrok.PARQUET_MCP_SERVER_PATH environ)); simpl;
    [|split; [split; [discriminate | intros (_&?&_); discriminate] | auto]].
  destruct (Ngrok.connect sys (Ngrok.server_params environ)) as [[]|[|msg]]; simpl;
    [|split; [split; [discriminate | intros (_&_&?&_); discriminate] | auto]..].
  destruct (Ngrok.call_tool sys Ngrok.add_record_call (Ngrok.store w))
    as [[result store']|[|msg]]; simpl;
    [|split; [split; [discriminate | intros (_&_&_&?&?&?&_); discriminate] | auto]..].
  destruct (Ngrok.isError result) eqn:Herr; simpl.
  - split; [split; [discriminate|] | auto].
    intros (_&_&_&?&?&H&?). inversion H; subst. congruence.
  - split; [split; [eauto 8 | reflexivity] | auto].
Qed.

Lemma scraper_exit k env url headless no_persistent output :
  (exit (run k env url headless no_persistent output) = ExitCode 0 <->
   exists result,
     scrape k (browser env) url headless (negb no_persistent) = Ok result /\
     forall path, target k output = Some path -> is_Ok (open_w env path) = true) /\
  (exit (run k env url headless no_persistent output) = ExitCode 0 \/
   exit (run k env url headless no_persistent output) = ExitCode 1).
Proof.
  destruct k; simpl.
  - unfold Simple.main.
    destruct (Simple.scrape_article (browser env) url) as [result|e]; simpl.
    + unfold dump_result.
      destruct (open_w env _) as [u|e] eqn:Hopen; simpl.
      * split; [split; [|reflexivity] | auto].
        intros _. exists result. split; [reflexivity|].
        intros path H. inversion H; subst. now rewrite Hopen.
      * split; [|destruct e; auto]. split; [destruct e; discriminate|].
        intros (r & _ & H). specialize (H _ eq_refl). rewrite Hopen in H.
        discriminate.
    + split; [|destruct e; auto]. split; [destruct e; discriminate|].
      intros (r & H & _). discriminate.
  - unfold Article.main.
    destruct (Article.scrape_nytimes_article _ _ _ _) as [result|e]; simpl.
    + destruct output as [[|c p]|]; simpl;
        try (split; [split; [|reflexivity] | auto];
             intros _; exists result; split; [reflexivity|]; discriminate).
      unfold dump_result.
      destruct (open_w env _) as [u|e] eqn:Hopen; simpl.
      * split; [split; [|reflexivity] | auto].
        intros _. exists result. split; [reflexivity|].
        intros path H. inversion H; subst. now rewrite Hopen.
      * split; [|destruct e; auto]. split; [destruct e; discriminate|].
        intros (r & _ & H). specialize (H _ eq_refl). rewrite Hopen in H.
        discriminate.
    + split; [|destruct e; auto]. split; [destruct e; discriminate|].
      intros (r & H & _). discriminate.
Qed.

(** Claim C6, amended: add_ngrok_mapping exits with code 0 exactly when the
    record was added and with code 1 on every error (a [KeyboardInterrupt]
    is left to the interpreter); each scraper exits with code 0 exactly when
    the scrape returned and the record, if one is to be written, could be
    written, and with code 1 otherwise; create_sample_parquet_files exits
    with code 0 whatever its error count. *)
Theorem exit_codes :
  (forall environ sys w,
     (fst (Ngrok.main environ sys w) = ExitCode 0 <-> Ngrok.added environ sys w) /\
     (fst (Ngrok.main environ sys w) = ExitCode 0 \/
      fst (Ngrok.main environ sys w) = ExitCode 1 \/
      fst (Ngrok.main environ sys w) = Uncaught KeyboardInterrupt)) /\
  (forall k env url headless no_persistent output,
     (exit (run k env url headless no_persistent output) = ExitCode 0 <->
      exists result,
        scrape k (browser env) url headless (negb no_persistent) = Ok result /\
        forall path, target k output = Some path ->
                     is_Ok (open_w env path) = true) /\
     (exit (run k env url headless no_persistent output) = ExitCode 0 \/
      exit (run k env url headless no_persistent output) = ExitCode 1)) /\
  (forall w data_dir max_files files,
     fst (Samples.main w data_dir max_files files) = ExitCode 0).
Proof.
  split; [exact ngrok_exit | split; [exact scraper_exit | reflexivity]].
Qed.

(** The two failures the claim names. *)
Lemma connection_failure_exits_1 environ sys w msg :
  Ngrok.path_exists sys (Ngrok.PARQUET_MCP_PYTHON environ) = true ->
  Ngrok.path_exists sys (Ngrok.PARQUET_MCP_SERVER_PATH environ) = true ->
  Ngrok.connect sys (Ngrok.server_params environ) = Raise (Exception msg) ->
  fst (Ngrok.main environ sys w) = ExitCode 1 /\
  Ngrok.calls (snd (Ngrok.main environ sys w)) = Ngrok.calls w.
Proof.
  intros Hpy Hsrv Hconn. unfold Ngrok.main, Ngrok.add_ngrok_mapping.
  rewrite Hpy, Hsrv, Hconn. simpl. auto.
Qed.

Lemma navigation_failure_exits_1 k env url headless no_persistent output e :
  (forall page, goto page url = Raise e) ->
  run k env url headless no_persistent output
  = {| exit := ExitCode 1; written := None |}.
Proof.
  intros Hgoto. destruct k; simpl.
  - unfold Simple.main, Simple.scrape_article, Simple.scrape_page, mbind, py_bind.
    destruct (launch_persistent_context _ _ _) as [page|e0]; [|now destruct e0].
    rewrite Hgoto. unfold finally.
    destruct (context_close _) as [|e1]; [now destruct e | now destruct e1].
  - unfold Article.main, Article.scrape_nytimes_article, Article.scrape_page,
      mbind, py_bind.
    destruct (if negb no_persistent then _ else _) as [page|e0]; [|now destruct e0].
    rewrite Hgoto. unfold finally.
    destruct (if negb no_persistent then _ else _) as [|e1];
      [now destruct e | now destruct e1].
Qed.

(** ** Repeating the extraction (C8) *)

(** On a read-only document a lookup answers as on the frozen page, and
    leaves the document. *)
Lemma read_only_lookup {D}
  (lookup : string -> D -> py_result (option (Live.LiveElement D)) * D) s d :
  Live.lookup_read_only lookup ->
  exists r, lookup s d = (r, d) /\
    match r with
    | Ok (Some elem) =>
        Live.freeze_lookup lookup d s = Ok (Some (Live.freeze_element d elem)) /\
        exists t, Live.live_inner_text elem d = (t, d)
    | Ok None => Live.freeze_lookup lookup d s = Ok None
    | Raise e => Live.freeze_lookup lookup d s = Raise e
    end.
Proof.
  intros Hro. destruct (Hro s d) as [Hd Helem]. unfold Live.freeze_lookup.
  destruct (lookup s d) as [r d1]. simpl in *. subst d1. exists r.
  split; [reflexivity|]. destruct r as [[elem|]|e]; auto.
  split; [reflexivity|]. specialize (Helem elem eq_refl d).
  destruct (Live.live_inner_text elem d) as [t d2]. simpl in Helem. subst. eauto.
Qed.

Lemma simple_scan_read_only {D} (page : Live.LivePage D) d :
  Live.read_only page ->
  forall selectors content,
    Live.simple_scan page content selectors d
    = (Simple.content_scan (Live.freeze page d) content selectors, d).
Proof.
  intros (Hq & _ & _). induction selectors as [|selector rest IH]; intros content;
    [reflexivity|].
  simpl. destruct (read_only_lookup _ selector d Hq) as (r & -> & Hr).
  destruct r as [[elem|]|e].
  - destruct Hr as (-> & t & Ht). simpl. rewrite Ht. simpl.
    destruct t as [t|e]; auto. destruct (500 <? len t)%nat; auto.
  - rewrite Hr. apply IH.
  - rewrite Hr. apply IH.
Qed.

Lemma article_scan_read_only {D} (page : Live.LivePage D) d :
  Live.read_only page ->
  forall selectors,
    Live.article_scan page selectors d
    = (Article.content_scan (Live.freeze page d) selectors, d).
Proof.
  intros (_ & Hw & _). induction selectors as [|selector rest IH]; [reflexivity|].
  simpl. destruct (read_only_lookup _ selector d Hw) as (r & -> & Hr).
  destruct r as [[elem|]|e].
  - destruct Hr as (-> & t & Ht). simpl. rewrite Ht. simpl.
    destruct t as [t|e]; auto. destruct (is_Exception e); auto.
  - rewrite Hr. apply IH.
  - rewrite Hr. destruct (is_Exception e); auto.
Qed.

Lemma fallback_read_only {D} (page : Live.LivePage D) d :
  Live.read_only page ->
  Live.live_fallback page d = (fallback (Live.freeze page d), d).
Proof.
  intros (_ & _ & Hb). unfold Live.live_fallback, fallback. simpl.
  specialize (Hb d). destruct (Live.live_body_inner_text page d) as [[t|e] d1].
  all: simpl in *; now subst.
Qed.

(** On a read-only document the live extraction is the extraction on the
    frozen page, and leaves the document. *)
Lemma live_extract_read_only {D} k (page : Live.LivePage D) selectors d :
  Live.read_only page ->
  live_extract k page selectors d = (extract k (Live.freeze page d) selectors, d).
Proof.
  intros Hro. destruct k; simpl.
  - unfold Live.simple_extract, Simple.extract_content.
    rewrite (simple_scan_read_only page d Hro).
    destruct (Simple.content_scan _ None selectors) as [[t s]|];
      [|now apply fallback_read_only].
    destruct (_ || _); [now apply fallback_read_only | reflexivity].
  - unfold Live.article_extract, Article.extract_content.
    rewrite (article_scan_read_only page d Hro).
    destruct (Article.content_scan _ selectors) as [[[t s]|]|e]; simpl;
      [|now apply fallback_read_only | reflexivity].
    destruct (len t =? 0)%nat; [now apply fallback_read_only | reflexivity].
Qed.

(** Claim C8: on a document that its queries leave unchanged, calling the
    extraction twice with the same selectors gives the same result twice,
    and the document after both calls is the document before them. *)
Theorem extraction_is_repeatable {D} k (page : Live.LivePage D) selectors d :
  Live.read_only page ->
  let '(r1, d1) := live_extract k page selectors d in
  let '(r2, d2) := live_extract k page selectors d1 in
  r1 = r2 /\ d1 = d /\ d2 = d.
Proof.
  intros Hro. rewrite (live_extract_read_only k page selectors d Hro).
  rewrite (live_extract_read_only k page selectors d Hro). auto.
Qed.

(** Read-only documents given by closed terms: every query returns the
    document it was given. *)
Ltac read_only_by_computation :=
  unfold Live.read_only, Live.lookup_read_only; simpl;
  repeat match goal with
         | |- _ /\ _ => split
         | |- forall _, _ => intro
         | H : Ok (Some _) = Ok (Some _) |- _ => inversion H; subst; clear H
         end;
  try reflexivity.

Lemma static_page_read_only : Live.read_only Examples.static_page.
Proof.
  read_only_by_computation.
Qed.

Lemma extraction_is_repeatable_witness :
  let '(r1, d1) := live_extract SimpleScript Examples.static_page ["article"]
                     (Examples.xs 600) in
  let '(r2, d2) := live_extract SimpleScript Examples.static_page ["article"] d1 in
  r1 = r2 /\ d1 = Examples.xs 600 /\ d2 = Examples.xs 600.
Proof.
  apply (extraction_is_repeatable SimpleScript Examples.static_page ["article"]
           (Examples.xs 600)).
  read_only_by_computation.
Defined.

(** The hypothesis matters: on a document that changes when it is read, the
    second extraction differs from the first. *)
Example changing_document_changes_result :
  fst (live_extract ArticleScript Examples.growing_page ["article"] "x")
  = Ok {| text := "x"; matched_selector := Selector "article" |} /\
  fst (live_extract ArticleScript Examples.growing_page ["article"]
         (snd (live_extract ArticleScript Examples.growing_page ["article"] "x")))
  = Ok {| text := "xx"; matched_selector := Selector "article" |}.
Proof. split; reflexivity. Qed.

(** * Further properties of the scripts *)

(** ** What the extraction returns and when it raises *)

Lemma first_yield_app accept k page l1 l2 :
  first_yield accept k page (l1 ++ l2)%list
  = match first_yield accept k page l1 with
    | Some x => Some x
    | None => first_yield accept k page l2
    end.
Proof.
  induction l1 as [|s l1 IH]; simpl; [reflexivity|].
  destruct (yields k page s) as [t|]; auto. destruct (accept t); auto.
Qed.

(** The text the simple loop leaves comes from the variable or from a
    selector of the list that yields it. *)
Lemma simple_scan_origin page selectors : forall content t s,
  Simple.content_scan page content selectors = Some (t, s) ->
  content = Some (t, s) \/
  (In s selectors /\ yields SimpleScript page s = Some t).
Proof.
  induction selectors as [|selector rest IH]; intros content t s H; simpl in *;
    [auto|].
  assert (Hrest : forall c, Simple.content_scan page c rest = Some (t, s) ->
            c = Some (t, s) \/
            In s (selector :: rest) /\ yields SimpleScript page s = Some t).
  { intros c Hc. destruct (IH _ _ _ Hc) as [?|[? ?]]; simpl; auto. }
  unfold yields, lookup.
  destruct (query_selector page selector) as [[elem|]|e] eqn:Hq; auto.
  destruct (inner_text elem) as [t0|e] eqn:Ht; auto.
  assert (Hhere : Some (t0, selector) = Some (t, s) ->
            In s (selector :: rest) /\ yields SimpleScript page s = Some t).
  { intros Heq. inversion Heq; subst. unfold yields, lookup.
    rewrite Hq, Ht. simpl; auto. }
  destruct (500 <? len t0)%nat; [right; auto|].
  destruct (Hrest _ H) as [Heq|?]; auto.
Qed.

Lemma article_scan_raises page selectors e :
  Article.content_scan page selectors = Raise e ->
  e = KeyboardInterrupt /\
  exists s, In s selectors /\ interrupted ArticleScript page s = true.
Proof.
  induction selectors as [|selector rest IH]; simpl; [discriminate|].
  intros H.
  assert (Hrest : Article.content_scan page rest = Raise e ->
            e = KeyboardInterrupt /\
            exists s, (selector = s \/ In s rest) /\
                      interrupted ArticleScript page s = true).
  { intros Hr. destruct (IH Hr) as (? & s & ? & ?). eauto. }
  destruct (wait_for_selector page selector) as [[elem|]|[|msg]] eqn:Hq; simpl in H;
    auto.
  - destruct (inner_text elem) as [t|[|msg]] eqn:Ht; simpl in H; auto;
      [discriminate|].
    inversion H; subst. split; [reflexivity|]. exists selector.
    split; [auto|]. now rewrite Hq, Ht.
  - inversion H; subst. split; [reflexivity|]. exists selector.
    split; [auto|]. now rewrite Hq.
Qed.

Lemma fallback_raises page e :
  fallback page = Raise e -> body_inner_text page = Raise e.
Proof.
  unfold fallback, mbind, py_bind.
  destruct (body_inner_text page); [discriminate | intros H; now inversion H].
Qed.

(** The content extraction raises only what reading the body raised in the
    fallback, or, in the article script, the [KeyboardInterrupt] that cut a
    probe: no error of a selector lookup or of reading an element's text
    leaves it. *)
Theorem extraction_raises_only_from_body_or_interrupt k page selectors e :
  extract k page selectors = Raise e ->
  body_inner_text page = Raise e \/
  (k = ArticleScript /\ e = KeyboardInterrupt /\
   exists s, In s selectors /\ interrupted k page s = true).
Proof.
  destruct k; simpl.
  - unfold Simple.extract_content. intros H. left.
    destruct (Simple.content_scan page None selectors) as [[t s]|];
      [|now apply fallback_raises].
    destruct (_ || _); [now apply fallback_raises | discriminate].
  - unfold Article.extract_content, mbind, py_bind.
    destruct (Article.content_scan page selectors) as [c|e0] eqn:Hscan.
    + intros H. left. destruct c as [[t s]|]; [|now apply fallback_raises].
      destruct (len t =? 0)%nat; [now apply fallback_raises | discriminate].
    + intros H. inversion H; subst. right.
      destruct (article_scan_raises _ _ _ Hscan) as (-> & Hs). auto.
Qed.

Lemma extraction_raises_only_from_body_or_interrupt_witness :
  body_inner_text Examples.unreadable = Raise (Exception "Timeout 30000ms exceeded.") \/
  (SimpleScript = ArticleScript /\
   Exception "Timeout 30000ms exceeded." = KeyboardInterrupt /\
   exists s, In s ["a"] /\ interrupted SimpleScript Examples.unreadable s = true).
Proof.
  apply (extraction_raises_only_from_body_or_interrupt SimpleScript
           Examples.unreadable ["a"]).
  reflexivity.
Defined.

(** A result attributed to a selector is sound: the selector is one of the
    list, the text is the text it yields on the page, and that text has the
    minimum length of the script (500 characters, 1 character). *)
Theorem selector_result_is_sound k page selectors r s :
  extract k page selectors = Ok r ->
  matched_selector r = Selector s ->
  In s selectors /\
  yields k page s = Some (text r) /\
  minimum_length k <= len (text r).
Proof.
  destruct k; simpl.
  - unfold Simple.extract_content.
    destruct (Simple.content_scan page None selectors) as [[t s0]|] eqn:Hscan.
    + destruct (Nat.eqb_spec (len t) 0) as [Hz|Hz]; simpl;
        [intros H Hm; apply fallback_is_fallback in H; congruence|].
      destruct (Nat.ltb_spec (len t) 500) as [Hl|Hl]; simpl;
        [intros H Hm; apply fallback_is_fallback in H; congruence|].
      intros H Hm. inversion H; subst. simpl in *. inversion Hm; subst.
      destruct (simple_scan_origin _ _ _ _ _ Hscan) as [?|[? ?]];
        [discriminate | auto].
    + intros H Hm. apply fallback_is_fallback in H. congruence.
  - unfold Article.extract_content, mbind, py_bind.
    destruct (Article.content_scan page selectors) as [[[t s0]|]|e] eqn:Hscan;
      [| intros H Hm; apply fallback_is_fallback in H; congruence | discriminate].
    apply article_scan_returns in Hscan.
    destruct (first_yield_sound _ _ _ _ _ _ Hscan) as (Hin & Hy & _).
    destruct (Nat.eqb_spec (len t) 0) as [Hz|Hz];
      [intros H Hm; apply fallback_is_fallback in H; congruence|].
    intros H Hm. inversion H; subst. simpl in *. inversion Hm; subst.
    repeat split; auto. lia.
Qed.

Lemma selector_result_is_sound_witness :
  In "b" ["a"; "b"] /\
  yields SimpleScript Examples.teaser_then_body "b" = Some (Examples.xs 600) /\
  minimum_length SimpleScript <= len (Examples.xs 600).
Proof.
  apply (selector_result_is_sound SimpleScript Examples.teaser_then_body ["a"; "b"]
           {| text := Examples.xs 600; matched_selector := Selector "b" |} "b").
  - vm_compute. reflexivity.
  - reflexivity.
Defined.

(** A fallback result holds the text read from the body, of any length. *)
Theorem fallback_result_is_body_text k page selectors r :
  extract k page selectors = Ok r ->
  matched_selector r = Fallback ->
  body_inner_text page = Ok (text r).
Proof.
  assert (Hfb : fallback page = Ok r -> body_inner_text page = Ok (text r)).
  { unfold fallback. destruct (body_inner_text page); simpl; [|discriminate].
    intros H. now inversion H. }
  destruct k; simpl.
  - unfold Simple.extract_content.
    destruct (Simple.content_scan page None selectors) as [[t s0]|]; auto.
    destruct (_ || _); auto. intros H Hm. inversion H; subst. discriminate.
  - unfold Article.extract_content, mbind, py_bind.
    destruct (Article.content_scan page selectors) as [[[t s0]|]|e]; auto;
      [|discriminate].
    destruct (len t =? 0)%nat; auto. intros H Hm. inversion H; subst. discriminate.
Qed.

Lemma fallback_result_is_body_text_witness :
  body_inner_text Examples.empty_then_text = Ok "full page text here".
Proof.
  apply (fallback_result_is_body_text ArticleScript Examples.empty_then_text ["a"; "b"]
           {| text := "full page text here"; matched_selector := Fallback |}).
  - reflexivity.
  - reflexivity.
Defined.

(** ** The simple script without a text of more than 500 characters *)

Lemma first_yield_none accept k page selectors :
  first_yield accept k page selectors = None ->
  forall s t, In s selectors -> yields k page s = Some t -> accept t = false.
Proof.
  induction selectors as [|selector rest IH]; simpl; [tauto|].
  intros H s t [<-|Hin] Hy.
  - rewrite Hy in H. destruct (accept t); [discriminate | reflexivity].
  - destruct (yields k page selector) as [t0|]; [|now apply (IH H s t)].
    destruct (accept t0); [discriminate | now apply (IH H s t)].
Qed.

(** Without a stop, every text a selector yields overwrites the variable:
    the loop leaves the text of the last selector that yields one. *)
Lemma simple_scan_keeps_last page selectors : forall content,
  first_yield (stops SimpleScript) SimpleScript page selectors = None ->
  Simple.content_scan page content selectors
  = match last_yield SimpleScript page selectors with
    | Some (s, t) => Some (t, s)
    | None => content
    end.
Proof.
  unfold last_yield.
  induction selectors as [|selector rest IH]; intros content H; [reflexivity|].
  simpl in *. rewrite first_yield_app. simpl. unfold yields, lookup in *.
  destruct (query_selector page selector) as [[elem|]|e].
  - destruct (inner_text elem) as [t0|e].
    + simpl in H. destruct (500 <? len t0)%nat; [discriminate|].
      rewrite (IH _ H).
      now destruct (first_yield _ SimpleScript page (rev rest)) as [[s t]|].
    + rewrite (IH _ H).
      now destruct (first_yield _ SimpleScript page (rev rest)) as [[s t]|].
  - rewrite (IH _ H).
    now destruct (first_yield _ SimpleScript page (rev rest)) as [[s t]|].
  - rewrite (IH _ H).
    now destruct (first_yield _ SimpleScript page (rev rest)) as [[s t]|].
Qed.

(** In the simple script, when no selector yields more than 500 characters,
    only the last text yielded counts: it is the result when it has exactly
    500 characters, and in every other case the result is the fallback,
    whatever the earlier selectors yielded. *)
Theorem simple_without_stop_keeps_last_text page selectors :
  first_yield (stops SimpleScript) SimpleScript page selectors = None ->
  Simple.extract_content page selectors
  = match last_yield SimpleScript page selectors with
    | Some (s, t) =>
        if (len t =? 500)%nat
        then Ok {| text := t; matched_selector := Selector s |}
        else fallback page
    | None => fallback page
    end.
Proof.
  intros H. unfold Simple.extract_content.
  rewrite (simple_scan_keeps_last _ _ None H).
  destruct (last_yield SimpleScript page selectors) as [[s t]|] eqn:Hlast;
    [|reflexivity].
  unfold last_yield in Hlast.
  destruct (first_yield_sound _ _ _ _ _ _ Hlast) as (Hin & Hy & _).
  apply (in_rev selectors) in Hin.
  pose proof (first_yield_none _ _ _ _ H s t Hin Hy) as Hstop. simpl in Hstop.
  apply Nat.ltb_ge in Hstop.
  destruct (Nat.eqb_spec (len t) 500) as [Heq|Hne].
  - rewrite Heq. reflexivity.
  - destruct (Nat.eqb_spec (len t) 0); [reflexivity|].
    destruct (Nat.ltb_spec (len t) 500); [reflexivity | lia].
Qed.

Lemma simple_without_stop_keeps_last_text_witness :
  Simple.extract_content Examples.exact_then_short ["a"; "b"]
  = match last_yield SimpleScript Examples.exact_then_short ["a"; "b"] with
    | Some (s, t) =>
        if (len t =? 500)%nat
        then Ok {| text := t; matched_selector := Selector s |}
        else fallback Examples.exact_then_short
    | None => fallback Examples.exact_then_short
    end.
Proof.
  apply (simple_without_stop_keeps_last_text Examples.exact_then_short ["a"; "b"]).
  vm_compute. reflexivity.
Defined.

(** ** The metadata probes *)

Lemma author_scan_catch_all page selectors :
  author_scan true page selectors = Ok (first_author page selectors).
Proof.
  unfold first_author.
  induction selectors as [|selector rest IH]; [reflexivity|].
  simpl. unfold yields, lookup.
  destruct (query_selector page selector) as [[elem|]|e]; auto.
  destruct (inner_text elem) as [t|e]; auto.
Qed.

(** The author recorded is the stripped text of the first author selector
    whose element is found and can be read: selectors that match nothing,
    fail, or match an unreadable element are passed over.  The probe of the
    simple script never raises; that of the article script raises only a
    [KeyboardInterrupt]. *)
Theorem author_is_first_readable catch_all page selectors :
  author_scan catch_all page selectors = Ok (first_author page selectors) \/
  (catch_all = false /\
   author_scan catch_all page selectors = Raise KeyboardInterrupt).
Proof.
  destruct catch_all; [left; apply author_scan_catch_all|].
  unfold first_author.
  induction selectors as [|selector rest IH]; [left; reflexivity|].
  simpl. unfold yields, lookup.
  destruct (query_selector page selector) as [[elem|]|[|msg]]; simpl; auto.
  destruct (inner_text elem) as [t|[|msg]]; simpl; auto.
Qed.

Lemma author_scan_modulo_errors catch_all page selectors :
  author_scan catch_all (without_lookup_errors page) selectors
  = author_scan catch_all page selectors.
Proof.
  induction selectors as [|selector rest IH]; [reflexivity|].
  simpl. destruct (query_selector page selector) as [[elem|]|[|msg]]; simpl;
    rewrite ?IH, ?orb_true_r; reflexivity.
Qed.

Lemma date_scan_modulo_errors page selectors :
  Article.date_scan (without_lookup_errors page) selectors
  = Article.date_scan page selectors.
Proof.
  induction selectors as [|selector rest IH]; [reflexivity|].
  simpl. destruct (query_selector page selector) as [[elem|]|[|msg]]; simpl;
    rewrite ?IH; try reflexivity.
Qed.

(** The whole record, not only its content, is the one the script builds
    on the page where every failing selector lookup matches nothing: the
    author and date probes pass over failing lookups as the content loop
    does. *)
Theorem record_ignores_lookup_errors k page url :
  scrape_page k (without_lookup_errors page) url = scrape_page k page url.
Proof.
  destruct k; simpl.
  - unfold Simple.scrape_page.
    change (Simple.extract_content (without_lookup_errors page) Simple.content_selectors)
      with (extract SimpleScript (without_lookup_errors page) Simple.content_selectors).
    rewrite lookup_errors_are_no_matches, author_scan_modulo_errors. reflexivity.
  - unfold Article.scrape_page.
    change (Article.extract_content (without_lookup_errors page) Article.article_selectors)
      with (extract ArticleScript (without_lookup_errors page) Article.article_selectors).
    rewrite lookup_errors_are_no_matches, author_scan_modulo_errors,
      date_scan_modulo_errors. reflexivity.
Qed.

Lemma simple_extract_returns page selectors body :
  body_inner_text page = Ok body ->
  exists r, Simple.extract_content page selectors = Ok r.
Proof.
  intros Hbody. unfold Simple.extract_content.
  rewrite (fallback_reads_body _ _ Hbody).
  destruct (Simple.content_scan page None selectors) as [[t s]|]; eauto.
  destruct (_ || _); eauto.
Qed.

(** The simple script returns a record as soon as the navigation, the wait,
    the body text and the title succeed: no failure of a content or author
    selector makes the scrape fail.  The record carries the url of the call
    and the title of the page. *)
Theorem simple_scrape_survives_selector_failures page url body headline :
  goto page url = Ok tt ->
  wait_for_timeout page = Ok tt ->
  body_inner_text page = Ok body ->
  title page = Ok headline ->
  exists r,
    Simple.scrape_page page url = Ok r /\
    dict_get r "url" = Some (JStr url) /\
    dict_get r "title" = Some (JStr headline).
Proof.
  intros Hgoto Hwait Hbody Htitle.
  destruct (simple_extract_returns page Simple.content_selectors body Hbody)
    as [r Hr].
  unfold Simple.scrape_page, mbind, py_bind.
  rewrite Hgoto, Hwait, Hr, Htitle, author_scan_catch_all.
  eexists. repeat split.
Qed.

Lemma simple_scrape_survives_selector_failures_witness :
  exists r,
    Simple.scrape_page Examples.failing_then_body "https://example.org/a" = Ok r /\
    dict_get r "url" = Some (JStr "https://example.org/a") /\
    dict_get r "title" = Some (JStr "A headline").
Proof.
  apply (simple_scrape_survives_selector_failures Examples.failing_then_body
           "https://example.org/a" "full page text here" "A headline");
    reflexivity.
Defined.

(** The publication date of the article script is sound: it is read from
    an element that one of the date selectors matches, and it is the
    [datetime] attribute of that element when that is a non-empty string,
    its visible text when the attribute is absent or empty. *)
Theorem publication_date_is_sound page selectors d :
  Article.date_scan page selectors = Ok (Some d) ->
  exists s date_elem,
    In s selectors /\
    query_selector page s = Ok (Some date_elem) /\
    ((get_attribute date_elem "datetime" = Ok (Some d) /\ d <> "") \/
     ((get_attribute date_elem "datetime" = Ok None \/
       get_attribute date_elem "datetime" = Ok (Some "")) /\
      inner_text date_elem = Ok d)).
Proof.
  induction selectors as [|selector rest IH]; simpl; [discriminate|].
  intros H.
  assert (Hrest : Article.date_scan page rest = Ok (Some d) ->
            exists s date_elem, (selector = s \/ In s rest) /\
              query_selector page s = Ok (Some date_elem) /\
              ((get_attribute date_elem "datetime" = Ok (Some d) /\ d <> "") \/
               ((get_attribute date_elem "datetime" = Ok None \/
                 get_attribute date_elem "datetime" = Ok (Some "")) /\
                inner_text date_elem = Ok d))).
  { intros Hr. destruct (IH Hr) as (s & e & ? & ? & ?). eauto 6. }
  destruct (query_selector page selector) as [[date_elem|]|e] eqn:Hq;
    [| auto | destruct (is_Exception e); [auto | discriminate]].
  destruct (Article.date_of date_elem) as [d0|e] eqn:Hd;
    [| destruct (is_Exception e); [auto | discriminate]].
  inversion H; subst. exists selector, date_elem. split; [auto|].
  split; [exact Hq|].
  unfold Article.date_of, mbind, py_bind in Hd.
  destruct (get_attribute date_elem "datetime") as [[[|c a]|]|e]; [| |auto|discriminate].
  - auto.
  - left. inversion Hd; subst. split; [reflexivity | discriminate].
Qed.

Lemma publication_date_is_sound_witness :
  exists s date_elem,
    In s ["time"] /\
    query_selector (Examples.page_of [("time", Examples.element "Jan. 13, 2026")] "")
      s = Ok (Some date_elem) /\
    ((get_attribute date_elem "datetime" = Ok (Some "Jan. 13, 2026") /\
      "Jan. 13, 2026" <> "") \/
     ((get_attribute date_elem "datetime" = Ok None \/
       get_attribute date_elem "datetime" = Ok (Some "")) /\
      inner_text date_elem = Ok "Jan. 13, 2026")).
Proof.
  apply (publication_date_is_sound
           (Examples.page_of [("time", Examples.element "Jan. 13, 2026")] "")
           ["time"] "Jan. 13, 2026").
  reflexivity.
Defined.

(** ** What the scrapers write *)


(** An exception of [context.close()] in the [finally] clause replaces the
    scraped record: the simple script, and the article script without the
    persistent context, then exit with code 1 and write nothing.  With the
    persistent context the article script does not close the context, and
    its record is the one scraped from the page. *)
Theorem close_failure_discards_the_record env url headless output page e :
  context_close (browser env) = Raise e ->
  (forall dir h, launch_persistent_context (browser env) dir h = Ok page) ->
  launch_new_context (browser env) headless = Ok page ->
  run SimpleScript env url headless false output
  = {| exit := ExitCode 1; written := None |} /\
  run ArticleScript env url headless true output
  = {| exit := ExitCode 1; written := None |} /\
  scrape ArticleScript (browser env) url headless true
  = Article.scrape_page page url.
Proof.
  intros Hclose Hlaunch Hnew. simpl. repeat split.
  - unfold Simple.main, Simple.scrape_article, mbind, py_bind, finally.
    rewrite Hlaunch, Hclose. now destruct e.
  - unfold Article.main, Article.scrape_nytimes_article, mbind, py_bind, finally.
    simpl. rewrite Hnew, Hclose. now destruct e.
  - unfold Article.scrape_nytimes_article, mbind, py_bind, finally.
    now rewrite Hlaunch.
Qed.

Lemma close_failure_discards_the_record_witness :
  run SimpleScript
    {| browser := Examples.stuck_browser Examples.no_match; open_w := fun _ => Ok tt |}
    "https://example.org/a" false false None
  = {| exit := ExitCode 1; written := None |}.
Proof.
  refine (proj1 (close_failure_discards_the_record
                   {| browser := Examples.stuck_browser Examples.no_match;
                      open_w := fun _ => Ok tt |}
                   "https://example.org/a" false None Examples.no_match
                   (Exception "Target closed") _ _ _)).
  - reflexivity.
  - intros dir h. reflexivity.
  - reflexivity.
Defined.

(** ** add_ngrok_mapping: what a run can do *)

(** Whatever the machine and the service do, one run opens at most one
    connection, with the parameters of the environment, sends at most one
    call, the [add_record] of the NGROK_AUTHTOKEN mapping, and only after
    that connection; it only appends to the output; and the record store
    changes only if the call was sent. *)
Theorem one_connection_one_call environ sys w :
  let w' := snd (Ngrok.add_ngrok_mapping environ sys w) in
  (Ngrok.connections w' = Ngrok.connections w /\ Ngrok.calls w' = Ngrok.calls w /\
   Ngrok.store w' = Ngrok.store w
   \/
   Ngrok.connections w'
   = (Ngrok.connections w ++ [Ngrok.server_params environ])%list /\
   (Ngrok.calls w' = Ngrok.calls w /\ Ngrok.store w' = Ngrok.store w \/
    Ngrok.calls w' = (Ngrok.calls w ++ [Ngrok.add_record_call])%list)) /\
  exists lines, Ngrok.stdout w' = (Ngrok.stdout w ++ lines)%list.
Proof.
  unfold Ngrok.add_ngrok_mapping.
  destruct (Ngrok.path_exists sys (Ngrok.PARQUET_MCP_PYTHON environ)); simpl;
    [|split; [auto | eauto]].
  destruct (Ngrok.path_exists sys (Ngrok.PARQUET_MCP_SERVER_PATH environ)); simpl;
    [|split; [auto | eauto]].
  destruct (Ngrok.connect sys (Ngrok.server_params environ)) as [[]|[|msg]]; simpl;
    [| split; [auto | exists []; now rewrite app_nil_r] | split; [auto | eauto]].
  destruct (Ngrok.call_tool sys Ngrok.add_record_call (Ngrok.store w))
    as [[result store']|[|msg]]; simpl;
    [| split; [auto | exists []; now rewrite app_nil_r] | split; [auto | eauto]].
  destruct (Ngrok.isError result); simpl; split; eauto.
Qed.

(** When the record is added, the run returns [True] after exactly one
    connection and one call; the store is the one the service answered
    with, and the success report is printed. *)
Theorem added_record_effects environ sys w :
  Ngrok.added environ sys w ->
  exists result store',
    Ngrok.call_tool sys Ngrok.add_record_call (Ngrok.store w) = Ok (result, store') /\
    Ngrok.add_ngrok_mapping environ sys w
    = (Ok true,
       {| Ngrok.store := store';
          Ngrok.calls := Ngrok.calls w ++ [Ngrok.add_record_call];
          Ngrok.connections := Ngrok.connections w ++ [Ngrok.server_params environ];
          Ngrok.stdout := Ngrok.stdout w ++ Ngrok.success_lines |}).
Proof.
  intros (Hpy & Hsrv & Hconn & result & store' & Hcall & Herr).
  exists result, store'. split; [exact Hcall|].
  unfold Ngrok.add_ngrok_mapping. rewrite Hpy, Hsrv, Hconn. simpl.
  rewrite Hcall, Herr. reflexivity.
Qed.

Lemma added_record_effects_witness :
  exists result store',
    Ngrok.call_tool Examples.ready Ngrok.add_record_call
      (Ngrok.store Examples.empty_world) = Ok (result, store') /\
    Ngrok.add_ngrok_mapping ∅ Examples.ready Examples.empty_world
    = (Ok true,
       {| Ngrok.store := store';
          Ngrok.calls := Ngrok.calls Examples.empty_world ++ [Ngrok.add_record_call];
          Ngrok.connections :=
            Ngrok.connections Examples.empty_world ++ [Ngrok.server_params ∅];
          Ngrok.stdout := Ngrok.stdout Examples.empty_world ++ Ngrok.success_lines |}).
Proof.
  apply (added_record_effects ∅ Examples.ready Examples.empty_world).
  repeat split; try (vm_compute; reflexivity).
  eexists _, _. split; reflexivity.
Defined.

(** When starting the service fails with an error, the run returns [False]
    and exits with code 1 without sending the call: the store is as it was,
    and the troubleshooting report, with the paths to check, is printed. *)
Theorem connection_failure_is_reported environ sys w msg :
  Ngrok.path_exists sys (Ngrok.PARQUET_MCP_PYTHON environ) = true ->
  Ngrok.path_exists sys (Ngrok.PARQUET_MCP_SERVER_PATH environ) = true ->
  Ngrok.connect sys (Ngrok.server_params environ) = Raise (Exception msg) ->
  exists w',
    Ngrok.main environ sys w = (ExitCode 1, w') /\
    Ngrok.calls w' = Ngrok.calls w /\
    Ngrok.store w' = Ngrok.store w /\
    Ngrok.stdout w' = (Ngrok.stdout w ++ Ngrok.troubleshooting environ msg)%list /\
    In ("  1. Check Python path: " ++ Ngrok.PARQUET_MCP_PYTHON environ)
       (Ngrok.stdout w').
Proof.
  intros Hpy Hsrv Hconn. unfold Ngrok.main, Ngrok.add_ngrok_mapping.
  rewrite Hpy, Hsrv, Hconn. simpl. eexists. repeat split.
  apply in_or_app. right. simpl. auto.
Qed.

Lemma connection_failure_is_reported_witness :
  exists w',
    Ngrok.main ∅ Examples.unreachable Examples.empty_world = (ExitCode 1, w') /\
    Ngrok.calls w' = Ngrok.calls Examples.empty_world /\
    Ngrok.store w' = Ngrok.store Examples.empty_world /\
    Ngrok.stdout w'
    = (Ngrok.stdout Examples.empty_world
       ++ Ngrok.troubleshooting ∅ "Connection closed")%list /\
    In ("  1. Check Python path: " ++ Ngrok.PARQUET_MCP_PYTHON ∅)
       (Ngrok.stdout w').
Proof.
  apply (connection_failure_is_reported ∅ Examples.unreachable Examples.empty_world
           "Connection closed"); reflexivity.
Defined.

(** When the service answers the call with an error, the run returns
    [False] and exits with code 1 after printing the answer; the call was
    sent, and the store is the one the service answered with. *)
Theorem error_answer_is_a_failure environ sys w result store' :
  Ngrok.path_exists sys (Ngrok.PARQUET_MCP_PYTHON environ) = true ->
  Ngrok.path_exists sys (Ngrok.PARQUET_MCP_SERVER_PATH environ) = true ->
  Ngrok.connect sys (Ngrok.server_params environ) = Ok tt ->
  Ngrok.call_tool sys Ngrok.add_record_call (Ngrok.store w) = Ok (result, store') ->
  Ngrok.isError result = true ->
  Ngrok.main environ sys w
  = (ExitCode 1,
     {| Ngrok.store := store';
        Ngrok.calls := Ngrok.calls w ++ [Ngrok.add_record_call];
        Ngrok.connections := Ngrok.connections w ++ [Ngrok.server_params environ];
        Ngrok.stdout :=
          Ngrok.stdout w ++ ["Error adding mapping: " ++ Ngrok.content result] |}).
Proof.
  intros Hpy Hsrv Hconn Hcall Herr. unfold Ngrok.main, Ngrok.add_ngrok_mapping.
  rewrite Hpy, Hsrv, Hconn. simpl. rewrite Hcall, Herr. reflexivity.
Qed.

Lemma error_answer_is_a_failure_witness :
  Ngrok.main ∅ Examples.rejecting Examples.empty_world
  = (ExitCode 1,
     {| Ngrok.store := ∅;
        Ngrok.calls := [Ngrok.add_record_call];
        Ngrok.connections := [Ngrok.server_params ∅];
        Ngrok.stdout := ["Error adding mapping: duplicate record"] |}).
Proof.
  apply (error_answer_is_a_failure ∅ Examples.rejecting Examples.empty_world
           {| Ngrok.isError := true; Ngrok.content := "duplicate record" |} ∅);
    reflexivity.
Defined.

(** ** create_sample_parquet_files: one sample file *)

Lemma firstn_min_length {A} n (l : list A) :
  firstn (Nat.min n (length l)) l = firstn n l.
Proof.
  destruct (Nat.le_ge_cases n (length l)) as [H|H].
  - now rewrite Nat.min_l.
  - rewrite Nat.min_r by exact H.
    now rewrite firstn_all, (firstn_all2 l) by exact H.
Qed.

(** [create_sample_file] either returns [True] after adding the sample at
    [sample_path], or changes nothing. *)
Lemma create_sample_file_outcome w files written src smp r files' written' :
  Samples.create_sample_file w files written src smp = (r, files', written') ->
  (r = Ok true /\
   exists f', files' = <[smp := f']> files /\ written' = (written ++ [smp])%list) \/
  (r <> Ok true /\ files' = files /\ written' = written).
Proof.
  unfold Samples.create_sample_file.
  destruct (files !! src) as [f|];
    [|intros H; inversion H; right; repeat split; discriminate].
  destruct (Samples.too_large f);
    [intros H; inversion H; right; repeat split; discriminate|].
  destruct (Samples.read_parquet f) as [df|e];
    [|intros H; inversion H; right; repeat split; destruct e; discriminate].
  destruct (_ =? 0)%nat;
    [intros H; inversion H; right; repeat split; discriminate|].
  destruct (Samples.to_parquet w _ smp) as [f'|e]; intros H; inversion H.
  - left. eauto.
  - right. repeat split. destruct e; discriminate.
Qed.

(** A sample that was created holds the first rows of its source, at least
    one and at most 50 of them, as the writer encoded them; the source was
    readable and not larger than 100 MiB. *)
Theorem sample_holds_first_rows w files written src smp files' written' :
  Samples.create_sample_file w files written src smp = (Ok true, files', written') ->
  exists f df f',
    files !! src = Some f /\
    (Samples.st_size f <= 100 * 1024 * 1024)%N /\
    Samples.read_parquet f = Ok df /\
    1 <= length (firstn 50 df) <= 50 /\
    Samples.to_parquet w (firstn 50 df) smp = Ok f' /\
    files' = <[smp := f']> files /\
    written' = (written ++ [smp])%list.
Proof.
  unfold Samples.create_sample_file, Samples.SAMPLE_SIZE.
  destruct (files !! src) as [f|] eqn:Hsrc; [|discriminate].
  unfold Samples.too_large.
  destruct (N.ltb_spec (100 * 1024 * 1024) (Samples.st_size f)) as [Hsize|Hsize];
    [discriminate|].
  destruct (Samples.read_parquet f) as [df|e] eqn:Hread;
    [|destruct (is_Exception e); discriminate].
  rewrite firstn_min_length.
  destruct (Nat.eqb_spec (length (firstn 50 df)) 0) as [Hz|Hz]; [discriminate|].
  destruct (Samples.to_parquet w (firstn 50 df) smp) as [f'|e] eqn:Hw;
    [|destruct (is_Exception e); discriminate].
  intros H. inversion H; subst. exists f, df, f'.
  split; [reflexivity|]. split; [exact Hsize|]. split; [exact Hread|].
  split; [split; [lia | apply firstn_le_length]|]. auto.
Qed.

Lemma sample_holds_first_rows_witness :
  exists f df f',
    Examples.one_sampled !! ("/data/sub", "b.parquet") = Some f /\
    (Samples.st_size f <= 100 * 1024 * 1024)%N /\
    Samples.read_parquet f = Ok df /\
    1 <= length (firstn 50 df) <= 50 /\
    Samples.to_parquet Examples.plain_writer (firstn 50 df)
      ("/data/sub", "b_sample.parquet") = Ok f' /\
    <[("/data/sub", "b_sample.parquet") :=
        {| Samples.st_size := 1000;
           Samples.read_parquet := Ok (repeat [("id", JInt 1)] 50) |}]>
      Examples.one_sampled
    = <[("/data/sub", "b_sample.parquet") := f']> Examples.one_sampled /\
    [("/data/sub", "b_sample.parquet")]
    = ([] ++ [("/data/sub", "b_sample.parquet")])%list.
Proof.
  apply (sample_holds_first_rows Examples.plain_writer Examples.one_sampled []
           ("/data/sub", "b.parquet") ("/data/sub", "b_sample.parquet")).
  reflexivity.
Defined.



(** ** create_sample_parquet_files: the run *)

(** The loop of [main], one file at a time. *)
Lemma process_cons w st info rest :
  (exists st1,
     Samples.process w st (info :: rest) = Samples.process w st1 rest /\
     stepped w st info st1) \/
  interrupted_at w st info (Samples.process w st (info :: rest)).
Proof.
  simpl. destruct (Samples.exists_ (Samples.fs st) (Samples.sample info)) eqn:Hex.
  - left. eexists. split; [reflexivity|]. left. simpl. auto 7.
  - destruct (Samples.create_sample_file w (Samples.fs st) (Samples.writes st)
                (Samples.source info) (Samples.sample info))
      as [[r fs'] writes'] eqn:Hcreate.
    destruct (create_sample_file_outcome _ _ _ _ _ _ _ _ Hcreate)
      as [(-> & f' & -> & ->)|(Hr & -> & ->)].
    + left. eexists. split; [reflexivity|]. right. left. simpl.
      split; [exact Hex|]. split; [eauto|]. split; [now rewrite Hcreate | auto].
    + destruct r as [[|]|[|msg]]; [congruence| | |].
      * left. eexists. split; [reflexivity|]. right. right. simpl.
        split; [exact Hex|]. split; [|auto 6].
        eexists. split; [exact Hcreate|]. split; discriminate.
      * right. unfold interrupted_at. simpl. auto 7.
      * left. eexists. split; [reflexivity|]. right. right. simpl.
        split; [exact Hex|]. split; [|auto 6].
        eexists. split; [exact Hcreate|]. split; discriminate.
Qed.

Lemma process_counts w files : forall st,
  let st' := Samples.process w st files in
  Samples.success_count st' + Samples.skip_count st' + Samples.error_count st'
  <= Samples.success_count st + Samples.skip_count st + Samples.error_count st
     + length files /\
  length (Samples.writes st') + Samples.success_count st
  = length (Samples.writes st) + Samples.success_count st'.
Proof.
  induction files as [|info rest IH]; intros st; [simpl; lia|].
  destruct (process_cons w st info rest) as [(st1 & -> & Hstep)|Hint].
  - specialize (IH st1). cbv zeta in IH. destruct IH as [IH1 IH2].
    destruct Hstep as [H|[H|H]].
    + destruct H as (_ & _ & Hw & Hs & Hk & He). rewrite Hw, Hs, Hk, He in *.
      simpl. lia.
    + destruct H as (_ & _ & _ & Hw & Hs & Hk & He). rewrite Hw, Hs, Hk, He in *.
      rewrite length_app in IH2. simpl in *. lia.
    + destruct H as (_ & _ & _ & Hw & Hs & Hk & He). rewrite Hw, Hs, Hk, He in *.
      simpl. lia.
  - destruct Hint as (_ & _ & _ & Hw & Hs & Hk & He). cbv zeta.
    rewrite Hw, Hs, Hk, He. simpl. lia.
Qed.

(** The three counters never count more files than were selected, and the
    number of samples written is the success count; by the limit on the
    selection, a run with [max_files = n > 0] handles at most [n] files,
    while 0 and no argument both mean no limit. *)
Theorem counters_are_bounded w data_dir max_files files :
  let st := snd (Samples.main w data_dir max_files files) in
  Samples.success_count st + Samples.skip_count st + Samples.error_count st
  <= length (selected data_dir max_files files) /\
  length (Samples.writes st) = Samples.success_count st /\
  length (selected data_dir max_files files)
  <= match max_files with
     | Some (S n) => S n
     | _ => length (Samples.find_parquet_files files data_dir)
     end /\
  selected data_dir (Some 0) files = selected data_dir None files.
Proof.
  cbv zeta. unfold Samples.main. simpl.
  match goal with
  | |- context [Samples.process w ?st0 ?found] =>
      destruct (process_counts w found st0) as [H1 H2]
  end.
  simpl in H1, H2. fold (selected data_dir max_files files) in *.
  split; [lia|]. split; [lia|]. split; [|reflexivity].
  unfold selected, Samples.limit. destruct max_files as [[|n]|]; auto.
  apply firstn_le_length.
Qed.

Lemma exists_false files p : Samples.exists_ files p = false <-> files !! p = None.
Proof. unfold Samples.exists_. destruct (files !! p); split; congruence. Qed.

Lemma rglob_parquet_spec files root_dir p :
  In p (Samples.rglob_parquet files root_dir) <->
  (exists f, files !! p = Some f) /\
  Samples.below root_dir p = true /\
  Samples.endswith (Samples.name p) ".parquet" = true.
Proof.
  unfold Samples.rglob_parquet.
  rewrite <- list_elem_of_In, list_elem_of_filter, andb_True, list_elem_of_In,
    in_map_iff, !Is_true_true.
  split.
  - intros ((Hb & Hn) & ((q & f) & <- & Hin)). simpl in *.
    apply list_elem_of_In, elem_of_map_to_list in Hin. eauto.
  - intros ((f & Hf) & Hb & Hn). split; [auto|]. exists (p, f). split; [reflexivity|].
    now apply list_elem_of_In, elem_of_map_to_list.
Qed.

Lemma collect_spec listing info :
  In info (Samples.collect listing) <->
  In (Samples.source info) listing /\
  contains "_sample" (Samples.name (Samples.source info)) = false /\
  contains "snapshots" (Samples.path_str (Samples.source info)) = false /\
  Samples.sample info = Samples.sample_path (Samples.source info) /\
  Samples.info_name info = Samples.name (Samples.source info).
Proof.
  induction listing as [|parquet_file rest IH]; simpl; [tauto|].
  destruct (contains "_sample" (Samples.name parquet_file)) eqn:Hs; simpl.
  - rewrite IH. split; [tauto|]. intros ([<-|?] & ? & ?); [congruence | tauto].
  - destruct (contains "snapshots" (Samples.path_str parquet_file)) eqn:Hd; simpl.
    + rewrite IH. split; [tauto|].
      intros ([<-|?] & ? & ? & ?); [congruence | tauto].
    + rewrite IH. split.
      * intros [<-|?]; simpl; tauto.
      * intros ([Hsrc|?] & ? & ? & Hsm & Hnm); [|tauto].
        left. destruct info as [src smp nm]. simpl in *. now subst.
Qed.

(** The files selected as sources are exactly the files of the file system
    that lie below the data directory, have a name ending in [.parquet]
    without [_sample] in it, and have no [snapshots] in their path; each
    comes with its sample path in the same directory. *)
Theorem selection_is_exact files root_dir info :
  In info (Samples.find_parquet_files files root_dir) <->
  (exists f, files !! Samples.source info = Some f) /\
  Samples.below root_dir (Samples.source info) = true /\
  Samples.endswith (Samples.name (Samples.source info)) ".parquet" = true /\
  contains "_sample" (Samples.name (Samples.source info)) = false /\
  contains "snapshots" (Samples.path_str (Samples.source info)) = false /\
  Samples.sample info
  = (Samples.parent (Samples.source info),
     Samples.replace (Samples.name (Samples.source info)) ".parquet" "_sample.parquet") /\
  Samples.info_name info = Samples.name (Samples.source info).
Proof.
  unfold Samples.find_parquet_files. rewrite collect_spec, rglob_parquet_spec.
  unfold Samples.sample_path. tauto.
Qed.

(** The effect of the loop on paths: the paths written are new paths, each
    the sample path of one of the files, each there after the loop; and
    every path there after the loop was there before or was written. *)
Lemma process_writes w files : forall st,
  exists new,
    Samples.writes (Samples.process w st files) = (Samples.writes st ++ new)%list /\
    (forall p, In p new ->
       Samples.fs st !! p = None /\
       Samples.fs (Samples.process w st files) !! p <> None /\
       exists info, In info files /\ p = Samples.sample info) /\
    (forall p, Samples.fs (Samples.process w st files) !! p <> None ->
       Samples.fs st !! p <> None \/ In p new).
Proof.
  induction files as [|info rest IH]; intros st.
  - exists []. simpl. rewrite app_nil_r.
    split; [reflexivity|]. split; [intros p [] | auto].
  - destruct (process_cons w st info rest) as [(st1 & Heq & Hstep)|Hint].
    + rewrite Heq. destruct (IH st1) as (new & Hw & Hnew & Hdom).
      destruct (process_frame w rest st1) as [Hkeep _].
      destruct Hstep as [H|[H|H]].
      * destruct H as (_ & Hfs & Hwr & _). rewrite Hfs, Hwr in *.
        exists new. split; [exact Hw|]. split; [|exact Hdom].
        intros p Hp. destruct (Hnew p Hp) as (? & ? & i & ? & ?).
        repeat split; auto. exists i. simpl; auto.
      * destruct H as (Hex & (f' & Hfs) & _ & Hwr & _). apply exists_false in Hex.
        exists (Samples.sample info :: new). rewrite Hw, Hwr, <- app_assoc.
        split; [reflexivity|]. split.
        -- intros p [<-|Hp].
           ++ split; [exact Hex|]. split; [|exists info; simpl; auto].
              rewrite (Hkeep (Samples.sample info) f'); [discriminate|].
              rewrite Hfs. apply lookup_insert_eq.
           ++ destruct (Hnew p Hp) as (Hnone & ? & i & ? & ?).
              rewrite Hfs in Hnone. apply lookup_insert_None in Hnone as [? _].
              repeat split; auto. exists i. simpl; auto.
        -- intros p Hp. destruct (Hdom p Hp) as [Hold|Hin]; [|simpl; auto].
           rewrite Hfs in Hold.
           destruct (decide (Samples.sample info = p)) as [<-|Hne]; [simpl; auto|].
           rewrite lookup_insert_ne in Hold by exact Hne. auto.
      * destruct H as (_ & _ & Hfs & Hwr & _). rewrite Hfs, Hwr in *.
        exists new. split; [exact Hw|]. split; [|exact Hdom].
        intros p Hp. destruct (Hnew p Hp) as (? & ? & i & ? & ?).
        repeat split; auto. exists i. simpl; auto.
    + destruct Hint as (_ & _ & Hfs & Hwr & _). exists [].
      rewrite Hwr, Hfs, app_nil_r.
      split; [reflexivity|]. split; [intros p [] | auto].
Qed.

(** A run never changes or removes a file that was there, the sources
    included; the files it adds are at the paths it wrote, each the sample
    path of a selected file, new, and there after the run. *)
Theorem run_only_adds_samples w data_dir max_files files :
  let st := snd (Samples.main w data_dir max_files files) in
  (forall p f, files !! p = Some f -> Samples.fs st !! p = Some f) /\
  (forall p, In p (Samples.writes st) ->
     files !! p = None /\
     Samples.fs st !! p <> None /\
     exists info, In info (selected data_dir max_files files) /\
                  p = Samples.sample info) /\
  (forall p, Samples.fs st !! p <> None ->
     files !! p <> None \/ In p (Samples.writes st)).
Proof.
  cbv zeta. unfold Samples.main. simpl.
  fold (selected data_dir max_files files).
  match goal with
  | |- context [Samples.process w ?st0 ?found] =>
      destruct (process_writes w found st0) as (new & Hw & Hnew & Hdom);
      destruct (process_frame w found st0) as [Hkeep _]
  end.
  simpl in Hw, Hnew, Hdom, Hkeep. rewrite Hw. auto.
Qed.

(** ** Names of sample files *)

Lemma append_cons x (a b : string) : String x a ++ b = String x (a ++ b).
Proof. reflexivity. Qed.

Lemma append_nil_l (b : string) : "" ++ b = b.
Proof. reflexivity. Qed.

Lemma prefix_nil b : String.prefix "" b = true.
Proof. now destruct b. Qed.

Lemma prefix_app a b : String.prefix a (a ++ b) = true.
Proof.
  induction a as [|c a IH]; [apply prefix_nil|].
  rewrite append_cons. simpl. destruct (ascii_dec c c); [exact IH | congruence].
Qed.

Lemma prefix_split a b : String.prefix a b = true -> exists c, b = a ++ c.
Proof.
  revert b. induction a as [|x a IH]; intros b H; [now exists b|].
  destruct b as [|y b]; simpl in H; [discriminate|].
  destruct (ascii_dec x y) as [->|]; [|discriminate].
  destruct (IH b H) as [c ->]. now exists c.
Qed.

Lemma string_app_assoc (a b c : string) : (a ++ b) ++ c = a ++ (b ++ c).
Proof.
  induction a as [|x a IH]; [reflexivity|]. rewrite !append_cons. now f_equal.
Qed.

Lemma string_app_nil_r (a : string) : a ++ "" = a.
Proof.
  induction a as [|x a IH]; [reflexivity|]. rewrite append_cons. now f_equal.
Qed.

Lemma rev_app_spec a b : String.rev_app a b = String.rev a ++ b.
Proof.
  unfold String.rev. revert b.
  induction a as [|x a IH]; intros b; simpl; [reflexivity|].
  rewrite (IH (String x b)), (IH (String x "")), string_app_assoc. reflexivity.
Qed.

Lemma rev_cons x a : String.rev (String x a) = String.rev a ++ String x "".
Proof. unfold String.rev at 1. simpl. apply rev_app_spec. Qed.

Lemma rev_append a b : String.rev (a ++ b) = String.rev b ++ String.rev a.
Proof.
  induction a as [|x a IH].
  - now rewrite append_nil_l, string_app_nil_r.
  - now rewrite append_cons, !rev_cons, IH, string_app_assoc.
Qed.

Lemma rev_involutive a : String.rev (String.rev a) = a.
Proof.
  induction a as [|x a IH]; [reflexivity|].
  now rewrite rev_cons, rev_append, IH.
Qed.

Lemma contains_app_r sub a : contains sub (a ++ sub) = true.
Proof.
  induction a as [|x a IH].
  - rewrite append_nil_l. destruct sub as [|y sub]; [reflexivity|].
    cbn [contains]. rewrite <- (string_app_nil_r (String y sub)) at 2.
    now rewrite prefix_app.
  - rewrite append_cons. cbn [contains]. rewrite IH. apply orb_true_r.
Qed.

(** A name that ends with a suffix contains it. *)
Lemma endswith_contains s suffix :
  Samples.endswith s suffix = true -> contains suffix s = true.
Proof.
  unfold Samples.endswith. intros H. apply prefix_split in H as [c Hc].
  apply (f_equal String.rev) in Hc.
  rewrite rev_involutive, rev_append, rev_involutive in Hc. subst s.
  apply contains_app_r.
Qed.

Lemma replace_marks_sample s :
  contains ".parquet" s = true ->
  contains "_sample" (Samples.replace s ".parquet" "_sample.parquet") = true.
Proof.
  unfold Samples.replace.
  induction s as [|c s IH]; [discriminate|].
  intros H. cbn [Samples.replace_go].
  destruct (String.prefix ".parquet" (String c s)) eqn:Hp.
  - reflexivity.
  - cbn [contains] in H. rewrite Hp in H. simpl in H.
    cbn [contains]. rewrite (IH H). apply orb_true_r.
Qed.

(** The sample of a source whose name ends in [.parquet] has [_sample] in
    its name: so a sample path is never itself selected as a source, in
    this run or a later one. *)
Theorem samples_are_never_sources files root_dir info :
  In info (Samples.find_parquet_files files root_dir) ->
  contains "_sample" (Samples.name (Samples.sample info)) = true /\
  forall files' root_dir' info',
    In info' (Samples.find_parquet_files files' root_dir') ->
    Samples.source info' <> Samples.sample info.
Proof.
  intros Hin. unfold Samples.find_parquet_files in Hin.
  apply collect_spec in Hin as (Hlist & _ & _ & Hsample & _).
  apply rglob_parquet_spec in Hlist as (_ & _ & Hend).
  assert (Hmark : contains "_sample" (Samples.name (Samples.sample info)) = true).
  { rewrite Hsample. simpl. apply replace_marks_sample, endswith_contains, Hend. }
  split; [exact Hmark|].
  intros files' root_dir' info' Hin' Heq.
  unfold Samples.find_parquet_files in Hin'.
  apply collect_spec in Hin' as (_ & Hno & _). rewrite Heq in Hno. congruence.
Qed.

Lemma samples_are_never_sources_witness :
  contains "_sample" (Samples.name ("/data", "a_sample.parquet")) = true.
Proof.
  refine (proj1 (samples_are_never_sources Examples.one_sampled "/data"
                   {| Samples.source := ("/data", "a.parquet");
                      Samples.sample := ("/data", "a_sample.parquet");
                      Samples.info_name := "a.parquet" |} _)).
  vm_compute. left. reflexivity.
Defined.

Lemma prefix_cons x a y b :
  String.prefix (String x a) (String y b)
  = if ascii_dec x y then String.prefix a b else false.
Proof. reflexivity. Qed.

Lemma replace_go_dot_free stem :
  contains "." stem = false ->
  Samples.replace_go ".parquet" "_sample.parquet" 0 (stem ++ ".parquet")
  = stem ++ "_sample.parquet".
Proof.
  induction stem as [|c stem IH]; [reflexivity|].
  intros H. cbn [contains] in H. apply orb_false_elim in H as [Hc Hrest].
  rewrite !append_cons. cbn [Samples.replace_go].
  rewrite prefix_cons in Hc. rewrite prefix_cons.
  destruct (ascii_dec "." c) as [Heq|Hne].
  - now rewrite prefix_nil in Hc.
  - now rewrite (IH Hrest).
Qed.

(** For a source [stem.parquet] whose stem has no dot, the sample is
    [stem_sample.parquet] in the same directory. *)
Theorem sample_path_of_plain_name dir stem :
  contains "." stem = false ->
  Samples.sample_path (dir, stem ++ ".parquet") = (dir, stem ++ "_sample.parquet").
Proof.
  intros H. unfold Samples.sample_path, Samples.replace. simpl.
  now rewrite replace_go_dot_free.
Qed.

Lemma sample_path_of_plain_name_witness :
  Samples.sample_path ("/data", "transactions" ++ ".parquet")
  = ("/data", "transactions" ++ "_sample.parquet").
Proof.
  apply (sample_path_of_plain_name "/data" "transactions"). reflexivity.
Defined.

(** A name with [.parquet] inside it gets the suffix at every occurrence. *)
Example sample_path_of_double_extension :
  Samples.sample_path ("/data", "a.parquet.parquet")
  = ("/data", "a_sample.parquet_sample.parquet").
Proof. reflexivity. Qed.

(** ** create_sample_parquet_files: complete and repeated runs *)

Lemma create_result_depends_on_source w files1 files2 written1 written2 src smp :
  files1 !! src = files2 !! src ->
  fst (fst (Samples.create_sample_file w files1 written1 src smp))
  = fst (fst (Samples.create_sample_file w files2 written2 src smp)).
Proof.
  intros H. unfold Samples.create_sample_file. rewrite H.
  destruct (files2 !! src) as [f|]; [|reflexivity].
  destruct (Samples.too_large f); [reflexivity|].
  destruct (Samples.read_parquet f) as [df|e]; [|reflexivity].
  destruct (_ =? 0)%nat; [reflexivity|].
  destruct (Samples.to_parquet w _ smp); reflexivity.
Qed.

Lemma create_interrupt w files written src smp files' written' :
  Samples.create_sample_file w files written src smp
  = (Raise KeyboardInterrupt, files', written') ->
  (exists f, files !! src = Some f /\
             Samples.read_parquet f = Raise KeyboardInterrupt) \/
  (exists df, Samples.to_parquet w df smp = Raise KeyboardInterrupt).
Proof.
  unfold Samples.create_sample_file.
  destruct (files !! src) as [f|] eqn:Hsrc; [|discriminate].
  destruct (Samples.too_large f); [discriminate|].
  destruct (Samples.read_parquet f) as [df|[|msg]] eqn:Hread; simpl;
    [| intros _; left; eauto | discriminate].
  destruct (_ =? 0)%nat; [discriminate|].
  destruct (Samples.to_parquet w _ smp) as [f'|[|msg]] eqn:Hw; simpl;
    [discriminate | intros _; right; eauto | discriminate].
Qed.

Lemma in_limit max_files found info :
  In info (Samples.limit max_files found) -> In info found.
Proof.
  unfold Samples.limit. destruct max_files as [[|n]|]; auto.
  rewrite <- (firstn_skipn (S n) found) at 2. intros H. apply in_or_app. auto.
Qed.

Lemma selected_source_exists data_dir max_files files info :
  In info (selected data_dir max_files files) ->
  exists f, files !! Samples.source info = Some f.
Proof.
  intros H. apply in_limit in H. unfold Samples.find_parquet_files in H.
  apply collect_spec in H as (H & _). now apply rglob_parquet_spec in H as (H & _).
Qed.

(** The loop on files that are there from the start and can be read
    without interrupt: every file is counted, and settled at the end. *)
Lemma process_complete w initial files : forall st,
  never_interrupted w initial ->
  (forall p f, initial !! p = Some f -> Samples.fs st !! p = Some f) ->
  (forall info, In info files -> exists f, initial !! Samples.source info = Some f) ->
  let st' := Samples.process w st files in
  Samples.success_count st' + Samples.skip_count st' + Samples.error_count st'
  = Samples.success_count st + Samples.skip_count st + Samples.error_count st
    + length files /\
  forall info, In info files -> settled w (Samples.fs st') info.
Proof.
  induction files as [|info rest IH]; intros st Hcalm Hframe Hsrc;
    [simpl; split; [lia | tauto]|].
  cbv zeta.
  destruct (Hsrc info (or_introl eq_refl)) as [f0 Hf0].
  destruct (process_cons w st info rest) as [(st1 & -> & Hstep)|Hint].
  - assert (Hframe1 : forall p f, initial !! p = Some f ->
              Samples.fs st1 !! p = Some f).
    { intros p f Hp. specialize (Hframe p f Hp).
      destruct Hstep as [H|[H|H]].
      - destruct H as (_ & -> & _). exact Hframe.
      - destruct H as (Hex & (f' & ->) & _). apply exists_false in Hex.
        rewrite lookup_insert_ne; [exact Hframe | congruence].
      - destruct H as (_ & _ & -> & _). exact Hframe. }
    destruct (IH st1 Hcalm Hframe1 (fun i Hi => Hsrc i (or_intror Hi)))
      as [IH1 IH2].
    destruct (process_frame w rest st1) as [Hkeep _].
    split.
    + destruct Hstep as [H|[H|H]].
      * destruct H as (_ & _ & _ & Hs & Hk & He). simpl. lia.
      * destruct H as (_ & _ & _ & _ & Hs & Hk & He). simpl. lia.
      * destruct H as (_ & _ & _ & _ & Hs & Hk & He). simpl. lia.
    + intros i [<-|Hi]; [|now apply IH2].
      destruct Hstep as [H|[H|H]].
      * destruct H as (Hex & Hfs & _). left. unfold Samples.exists_ in *.
        rewrite <- Hfs in Hex.
        destruct (Samples.fs st1 !! Samples.sample info) as [f|] eqn:Hf;
          [|discriminate].
        now rewrite (Hkeep _ _ Hf).
      * destruct H as (_ & (f' & Hfs) & _). left. unfold Samples.exists_.
        rewrite (Hkeep (Samples.sample info) f'); [reflexivity|].
        rewrite Hfs. apply lookup_insert_eq.
      * destruct H as (_ & (r & Hc & Hr & _) & Hfs & _). right. unfold outcome.
        rewrite (create_result_depends_on_source w _ (Samples.fs st) _
                   (Samples.writes st)).
        -- now rewrite Hc.
        -- rewrite (Hkeep _ f0), (Hframe _ f0); auto.
  - exfalso. destruct Hint as (_ & Hc & _). destruct Hcalm as [Hread Hwrite].
    apply create_interrupt in Hc as [(f & Hf & Hr)|(df & Hw)].
    + rewrite (Hframe _ _ Hf0) in Hf. inversion Hf; subst.
      exact (Hread _ _ Hf0 Hr).
    + exact (Hwrite _ _ Hw).
Qed.

(** When no [KeyboardInterrupt] reaches the run, every selected file is
    counted exactly once, as created, skipped or failed. *)
Theorem every_file_is_counted w data_dir max_files files :
  never_interrupted w files ->
  let st := snd (Samples.main w data_dir max_files files) in
  Samples.success_count st + Samples.skip_count st + Samples.error_count st
  = length (selected data_dir max_files files).
Proof.
  intros Hcalm. cbv zeta. unfold Samples.main. simpl.
  fold (selected data_dir max_files files).
  match goal with
  | |- context [Samples.process w ?st0 ?found] =>
      destruct (process_complete w files found st0 Hcalm) as [H _]
  end; [auto | apply selected_source_exists |].
  simpl in H. exact H.
Qed.

(** The loop changes nothing on files that are all settled. *)
Lemma process_settled w files : forall st,
  (forall info, In info files -> settled w (Samples.fs st) info) ->
  Samples.fs (Samples.process w st files) = Samples.fs st /\
  Samples.writes (Samples.process w st files) = Samples.writes st /\
  Samples.success_count (Samples.process w st files) = Samples.success_count st.
Proof.
  induction files as [|info rest IH]; intros st Hall; [simpl; auto|].
  destruct (process_cons w st info rest) as [(st1 & -> & Hstep)|Hint].
  - destruct Hstep as [H|[H|H]].
    + destruct H as (_ & Hfs & Hwr & Hs & _). rewrite <- Hfs, <- Hwr, <- Hs.
      apply IH. rewrite Hfs. intros i Hi. apply Hall. now right.
    + exfalso. destruct H as (Hex & _ & Hc & _).
      destruct (Hall info (or_introl eq_refl)) as [Hthere|Hfail]; [congruence|].
      apply Hfail. unfold outcome.
      now rewrite (create_result_depends_on_source w _ (Samples.fs st) _
                     (Samples.writes st)).
    + destruct H as (_ & _ & Hfs & Hwr & Hs & _). rewrite <- Hfs, <- Hwr, <- Hs.
      apply IH. rewrite Hfs. intros i Hi. apply Hall. now right.
  - destruct Hint as (_ & _ & Hfs & Hwr & Hs & _). auto.
Qed.

Lemma selected_sample_is_marked files root_dir info :
  In info (Samples.find_parquet_files files root_dir) ->
  contains "_sample" (Samples.name (Samples.sample info)) = true.
Proof.
  intros Hin. unfold Samples.find_parquet_files in Hin.
  apply collect_spec in Hin as (Hlist & _ & _ & Hsample & _).
  apply rglob_parquet_spec in Hlist as (_ & _ & Hend).
  rewrite Hsample. simpl. apply replace_marks_sample, endswith_contains, Hend.
Qed.

(** Running the script again right after a complete run creates nothing:
    every sample of the first run is found and skipped, every file that
    failed fails again, and no sample is taken for a source. *)
Theorem second_run_creates_nothing w data_dir max_files files :
  never_interrupted w files ->
  let st1 := snd (Samples.main w data_dir None files) in
  let st2 := snd (Samples.main w data_dir max_files (Samples.fs st1)) in
  Samples.writes st2 = [] /\
  Samples.fs st2 = Samples.fs st1 /\
  Samples.success_count st2 = 0.
Proof.
  intros Hcalm. cbv zeta.
  set (st1 := snd (Samples.main w data_dir None files)).
  assert (Hsettled : forall info,
            In info (Samples.find_parquet_files files data_dir) ->
            settled w (Samples.fs st1) info).
  { subst st1. unfold Samples.main. simpl.
    match goal with
    | |- context [Samples.process w ?st0 ?found] =>
        destruct (process_complete w files found st0 Hcalm) as [_ H]
    end; [auto | apply (selected_source_exists data_dir None) | exact H]. }
  assert (Hdom : forall p, Samples.fs st1 !! p <> None ->
            files !! p <> None \/
            exists info, In info (Samples.find_parquet_files files data_dir) /\
                         p = Samples.sample info).
  { subst st1. unfold Samples.main. simpl.
    match goal with
    | |- context [Samples.process w ?st0 ?found] =>
        destruct (process_writes w found st0) as (new & _ & Hnew & Hd)
    end.
    simpl in Hnew, Hd. intros p Hp. destruct (Hd p Hp) as [?|Hin]; [auto|].
    right. now destruct (Hnew p Hin) as (_ & _ & ?). }
  assert (Hsame : forall info,
            In info (Samples.find_parquet_files (Samples.fs st1) data_dir) ->
            In info (Samples.find_parquet_files files data_dir)).
  { intros info Hin. unfold Samples.find_parquet_files in *.
    apply collect_spec in Hin as (Hlist & Hno & Hrest).
    apply collect_spec. split; [|auto].
    apply rglob_parquet_spec in Hlist as ((f & Hf) & Hb & He).
    apply rglob_parquet_spec. split; [|auto].
    destruct (Hdom (Samples.source info)) as [Hold|(i & Hi & Heq)]; [congruence | |].
    - destruct (files !! Samples.source info) as [f0|]; [eauto | congruence].
    - apply selected_sample_is_marked in Hi. rewrite Heq in Hno. congruence. }
  unfold Samples.main at 1 2 3. simpl.
  match goal with
  | |- context [Samples.process w ?st0 ?found] =>
      destruct (process_settled w found st0) as (Hfs & Hwr & Hs)
  end; [|simpl in *; auto].
  simpl. intros info Hin. apply in_limit in Hin. auto.
Qed.

(** The file systems of the examples hold readable tables, and the plain
    writer always succeeds. *)
Ltac calm_by_cases :=
  split;
  [ intros p f H;
    repeat (apply lookup_insert_Some in H as [[_ <-]|[_ H]]; [discriminate|]);
    apply lookup_singleton_Some in H as [_ <-]; discriminate
  | intros df p; discriminate ].

Lemma every_file_is_counted_witness :
  let st := snd (Samples.main Examples.plain_writer "/data" None
                   Examples.three_sources) in
  Samples.success_count st + Samples.skip_count st + Samples.error_count st
  = length (selected "/data" None Examples.three_sources).
Proof.
  apply (every_file_is_counted Examples.plain_writer "/data" None
           Examples.three_sources).
  unfold Examples.three_sources. calm_by_cases.
Defined.

(** One source too large, one without rows, one sampled. *)
Example three_sources_counts :
  let st := snd (Samples.main Examples.plain_writer "/data" None
                   Examples.three_sources) in
  (Samples.success_count st, Samples.skip_count st, Samples.error_count st)
  = (1, 0, 2) /\
  Samples.writes st = [("/data", "c_sample.parquet")].
Proof. vm_compute. split; reflexivity. Qed.

Lemma second_run_creates_nothing_witness :
  let st1 := snd (Samples.main Examples.plain_writer "/data" None
                    Examples.three_sources) in
  let st2 := snd (Samples.main Examples.plain_writer "/data" None
                    (Samples.fs st1)) in
  Samples.writes st2 = [] /\
  Samples.fs st2 = Samples.fs st1 /\
  Samples.success_count st2 = 0.
Proof.
  apply (second_run_creates_nothing Examples.plain_writer "/data" None
           Examples.three_sources).
  unfold Examples.three_sources. calm_by_cases.
Defined.
